(** * Mass-Mailer-CLI: the wizard controller of [main.go] and of its earlier variant

    The program is a Bubble Tea application: the host runtime delivers
    messages one at a time to [model.Update], which returns the next model
    and a command.  Both source files are embedded here:

    - [Module Main]   : [src/main.go] (Home menu, debounced quit on Progress);
    - [Module Legacy] : [src/unnamed/part_000] (no Home screen, immediate quit).

    The widgets of the Bubbles library (list, filepicker, textinput,
    progress) are not part of the repository: they are taken as parameters
    through the class [Widgets].  The system clock is an explicit input of
    every handler. *)

From Stdlib Require Import ZArith QArith String Ascii List Bool Lia.
From Stdlib Require DecimalString.
Import ListNotations.

Set Warnings "-register-all".

Local Open Scope string_scope.
Local Open Scope Z_scope.

(** ** Machine integers *)

(** Go's [int] on a 64-bit target: [++] and [--] wrap around. *)
Definition wrap64 (z : Z) : Z := (z + 2 ^ 63) mod 2 ^ 64 - 2 ^ 63.

(** ** Package [time] *)

(** An instant, in nanoseconds since the zero [time.Time]. *)
Definition Time := Z.

(** [time.Duration]: a signed 64-bit count of nanoseconds. *)
Definition Duration := Z.

Definition Millisecond : Duration := 1000000.
Definition Second : Duration := 1000000000.
Definition minDuration : Duration := - 2 ^ 63.
Definition maxDuration : Duration := 2 ^ 63 - 1.

Definition IsZero (t : Time) : bool := t =? 0.

(** [t.Sub(u)]: the difference, saturated to the range of a [Duration]. *)
Definition Sub (t u : Time) : Duration :=
  let d := t - u in
  if d <? minDuration then minDuration
  else if maxDuration <? d then maxDuration
  else d.

(** The readings of the system clock that one call of [Update] observes:
    what [time.Now()] returns, and the instant that [time.Since] reads
    afterwards.  No handler reads the clock more often than that. *)
Record Clock := { clock_Now : Time; clock_Since : Time }.

Definition time_Now (clk : Clock) : Time := clock_Now clk.
Definition time_Since (clk : Clock) (t : Time) : Duration := Sub (clock_Since clk) t.

(** ** Bubble Tea messages and commands *)

Inductive KeyType :=
| KeyEnter | KeyRunes | KeyTab | KeyUp | KeyDown | KeyCtrlC | KeyEsc | KeyBackspace.

(** A key press as the handlers observe it: [msg.Type] and [msg.String()]. *)
Record Key := { key_Type : KeyType; key_String : string }.

Inductive Msg :=
| WindowSizeMsg (Width Height : Z)      (* tea.WindowSizeMsg *)
| KeyMsg (k : Key)                      (* tea.KeyMsg *)
| MouseMsg                              (* tea.MouseMsg *)
| ExitMsg (tag : Z)                     (* exitMsg, main.go only *)
| TickMsg (t : Time)                    (* tickMsg *)
| FrameMsg (id tag : Z)                 (* progress.FrameMsg *)
| OtherMsg (n : Z).                     (* any message private to a widget *)

(** The message a [tea.Tick] sends when it fires. *)
Inductive TickReply :=
| ReplyTick                             (* tickMsg(t) *)
| ReplyExit (tag : Z).                  (* exitMsg(tag) *)

Inductive Cmd :=
| CmdNil                                (* nil *)
| Quit                                  (* tea.Quit *)
| Tick (d : Duration) (reply : TickReply)   (* tea.Tick(d, fn) *)
| Batch (cs : list Cmd)                 (* tea.Batch(cs...) *)
| Blink                                 (* textinput.Blink *)
| WidgetCmd (n : Z).                    (* a command private to a widget *)

(** Whether running the command sends [tea.QuitMsg], which stops the loop. *)
Fixpoint requestsQuit (c : Cmd) : bool :=
  match c with
  | Quit => true
  | Batch cs => existsb requestsQuit cs
  | _ => false
  end.

(** Whether running the command arms a timer, and with which reply. *)
Fixpoint armsTick (d : Duration) (r : TickReply) (c : Cmd) : bool :=
  match c with
  | Tick d' r' =>
      (d' =? d)%Z &&
      match r, r' with
      | ReplyTick, ReplyTick => true
      | ReplyExit a, ReplyExit b => (a =? b)%Z
      | _, _ => false
      end
  | Batch cs => existsb (armsTick d r) cs
  | _ => false
  end.

Definition tickCmd : Cmd := Tick (Millisecond * 100) ReplyTick.

Definition isQuitKey (k : Key) : bool :=
  ((key_String k =? "ctrl+c") || (key_String k =? "q"))%string.

Definition isSet (s : string) : bool := negb (s =? "")%string.

Definition newline : string := String (ascii_of_nat 10) EmptyString.

(** [type item struct] of main.go. *)
Record item := { title : string; description : string }.

(** ** The widgets, as the controller uses them *)

Class Widgets := {
  (* bubbles/list *)
  list_Model : Type;
  (* list.New(items, delegate, 0, 0) with the settings of initialModel *)
  list_New : list item -> list_Model;
  list_SetSize : Z -> Z -> list_Model -> list_Model;
  list_CursorUp : list_Model -> list_Model;
  list_CursorDown : list_Model -> list_Model;
  (* m.list.SelectedItem().(item): the item, or None when !ok *)
  list_SelectedItem : list_Model -> option item;
  list_Update : Msg -> list_Model -> list_Model * Cmd;
  (* style.GetFrameSize() *)
  style_GetFrameSize : Z * Z;
  (* bubbles/filepicker *)
  filepicker_Model : Type;
  (* filepicker.New() with AllowedTypes and CurrentDirectory assigned *)
  filepicker_New : list string -> string -> filepicker_Model;
  filepicker_Init : filepicker_Model -> Cmd;
  filepicker_Update : Msg -> filepicker_Model -> filepicker_Model * Cmd;
  filepicker_DidSelectFile : Msg -> filepicker_Model -> bool * string;
  filepicker_CurrentDirectory : filepicker_Model -> string;
  filepicker_setCurrentDirectory : string -> filepicker_Model -> filepicker_Model;
  (* bubbles/textinput *)
  textinput_Model : Type;
  (* textinput.New() with the Placeholder assigned, focused *)
  textinput_New : string -> textinput_Model;
  textinput_Update : Msg -> textinput_Model -> textinput_Model * Cmd;
  textinput_Value : textinput_Model -> string;
  (* bubbles/progress *)
  progress_Model : Type;
  progress_New : progress_Model;
  progress_setWidth : Z -> progress_Model -> progress_Model;
  progress_SetPercent : Q -> progress_Model -> progress_Model * Cmd;
  progress_Update : Msg -> progress_Model -> progress_Model * Cmd
}.

(** Modelled from the spec: the Progress Indicator's own handling of the
    fraction it is given, which is not code of this repository ("a value
    clamped to [0,1]"). *)
Definition clamp01 (p : Q) : Q :=
  if Qle_bool p 0 then 0%Q else if Qle_bool 1 p then 1%Q else p.

(** [float64(elapsed) / (5 * float64(time.Second))], the quotient taken in
    the rationals. *)
Definition progressNum (elapsed : Duration) : Q :=
  (inject_Z elapsed / (5 * inject_Z Second))%Q.

(** The line [main] prints when the run was confirmed. *)
Definition sentLine (csv html subj : string) : string :=
  ("Emails sent using CSV file: " ++ csv ++ ", HTML template: " ++ html
    ++ ", and subject: " ++ subj ++ newline)%string.

Definition cancelledLine : string := ("Operation cancelled." ++ newline)%string.

(** * [src/main.go] *)

Module Main.

(** The screens: the constants [homeView] ... [quitView]. *)
Inductive View :=
| homeView | fileSelectionView | subjectInputView | confirmationView
| progressView | quitView.

Definition padding : Z := 2.
Definition maxWidth : Z := 100.
Definition debounceDuration : Duration := Second * 5.

Section WithWidgets.
Context {W : Widgets}.

(** [type model struct].  The fields [err], [keys], [selectedFile] and [msg]
    are never assigned after [initialModel] and never read by [Update]; they
    are left out. *)
Record model := {
  list_ : list_Model;
  csvFilepicker : filepicker_Model;
  htmlFilepicker : filepicker_Model;
  textInput : textinput_Model;
  progress : progress_Model;
  currentView : View;
  csvFilePath : string;
  htmlFilePath : string;
  subject : string;
  confirmed : bool;
  quitting : bool;
  cursor : Z;
  startTime : Time;
  tag : Z;
  quitTimer : Time;
  windowSize : Z * Z
}.

Definition set_list (x : list_Model) (m : model) : model :=
  {| list_ := x; csvFilepicker := csvFilepicker m; htmlFilepicker := htmlFilepicker m;
     textInput := textInput m; progress := progress m; currentView := currentView m;
     csvFilePath := csvFilePath m; htmlFilePath := htmlFilePath m; subject := subject m;
     confirmed := confirmed m; quitting := quitting m; cursor := cursor m;
     startTime := startTime m; tag := tag m; quitTimer := quitTimer m;
     windowSize := windowSize m |}.

Definition set_csvFilepicker (x : filepicker_Model) (m : model) : model :=
  {| list_ := list_ m; csvFilepicker := x; htmlFilepicker := htmlFilepicker m;
     textInput := textInput m; progress := progress m; currentView := currentView m;
     csvFilePath := csvFilePath m; htmlFilePath := htmlFilePath m; subject := subject m;
     confirmed := confirmed m; quitting := quitting m; cursor := cursor m;
     startTime := startTime m; tag := tag m; quitTimer := quitTimer m;
     windowSize := windowSize m |}.

Definition set_htmlFilepicker (x : filepicker_Model) (m : model) : model :=
  {| list_ := list_ m; csvFilepicker := csvFilepicker m; htmlFilepicker := x;
     textInput := textInput m; progress := progress m; currentView := currentView m;
     csvFilePath := csvFilePath m; htmlFilePath := htmlFilePath m; subject := subject m;
     confirmed := confirmed m; quitting := quitting m; cursor := cursor m;
     startTime := startTime m; tag := tag m; quitTimer := quitTimer m;
     windowSize := windowSize m |}.

Definition set_textInput (x : textinput_Model) (m : model) : model :=
  {| list_ := list_ m; csvFilepicker := csvFilepicker m; htmlFilepicker := htmlFilepicker m;
     textInput := x; progress := progress m; currentView := currentView m;
     csvFilePath := csvFilePath m; htmlFilePath := htmlFilePath m; subject := subject m;
     confirmed := confirmed m; quitting := quitting m; cursor := cursor m;
     startTime := startTime m; tag := tag m; quitTimer := quitTimer m;
     windowSize := windowSize m |}.

Definition set_progress (x : progress_Model) (m : model) : model :=
  {| list_ := list_ m; csvFilepicker := csvFilepicker m; htmlFilepicker := htmlFilepicker m;
     textInput := textInput m; progress := x; currentView := currentView m;
     csvFilePath := csvFilePath m; htmlFilePath := htmlFilePath m; subject := subject m;
     confirmed := confirmed m; quitting := quitting m; cursor := cursor m;
     startTime := startTime m; tag := tag m; quitTimer := quitTimer m;
     windowSize := windowSize m |}.

Definition set_currentView (x : View) (m : model) : model :=
  {| list_ := list_ m; csvFilepicker := csvFilepicker m; htmlFilepicker := htmlFilepicker m;
     textInput := textInput m; progress := progress m; currentView := x;
     csvFilePath := csvFilePath m; htmlFilePath := htmlFilePath m; subject := subject m;
     confirmed := confirmed m; quitting := quitting m; cursor := cursor m;
     startTime := startTime m; tag := tag m; quitTimer := quitTimer m;
     windowSize := windowSize m |}.

Definition set_csvFilePath (x : string) (m : model) : model :=
  {| list_ := list_ m; csvFilepicker := csvFilepicker m; htmlFilepicker := htmlFilepicker m;
     textInput := textInput m; progress := progress m; currentView := currentView m;
     csvFilePath := x; htmlFilePath := htmlFilePath m; subject := subject m;
     confirmed := confirmed m; quitting := quitting m; cursor := cursor m;
     startTime := startTime m; tag := tag m; quitTimer := quitTimer m;
     windowSize := windowSize m |}.

Definition set_htmlFilePath (x : string) (m : model) : model :=
  {| list_ := list_ m; csvFilepicker := csvFilepicker m; htmlFilepicker := htmlFilepicker m;
     textInput := textInput m; progress := progress m; currentView := currentView m;
     csvFilePath := csvFilePath m; htmlFilePath := x; subject := subject m;
     confirmed := confirmed m; quitting := quitting m; cursor := cursor m;
     startTime := startTime m; tag := tag m; quitTimer := quitTimer m;
     windowSize := windowSize m |}.

Definition set_subject (x : string) (m : model) : model :=
  {| list_ := list_ m; csvFilepicker := csvFilepicker m; htmlFilepicker := htmlFilepicker m;
     textInput := textInput m; progress := progress m; currentView := currentView m;
     csvFilePath := csvFilePath m; htmlFilePath := htmlFilePath m; subject := x;
     confirmed := confirmed m; quitting := quitting m; cursor := cursor m;
     startTime := startTime m; tag := tag m; quitTimer := quitTimer m;
     windowSize := windowSize m |}.

Definition set_confirmed (x : bool) (m : model) : model :=
  {| list_ := list_ m; csvFilepicker := csvFilepicker m; htmlFilepicker := htmlFilepicker m;
     textInput := textInput m; progress := progress m; currentView := currentView m;
     csvFilePath := csvFilePath m; htmlFilePath := htmlFilePath m; subject := subject m;
     confirmed := x; quitting := quitting m; cursor := cursor m;
     startTime := startTime m; tag := tag m; quitTimer := quitTimer m;
     windowSize := windowSize m |}.

Definition set_quitting (x : bool) (m : model) : model :=
  {| list_ := list_ m; csvFilepicker := csvFilepicker m; htmlFilepicker := htmlFilepicker m;
     textInput := textInput m; progress := progress m; currentView := currentView m;
     csvFilePath := csvFilePath m; htmlFilePath := htmlFilePath m; subject := subject m;
     confirmed := confirmed m; quitting := x; cursor := cursor m;
     startTime := startTime m; tag := tag m; quitTimer := quitTimer m;
     windowSize := windowSize m |}.

Definition set_cursor (x : Z) (m : model) : model :=
  {| list_ := list_ m; csvFilepicker := csvFilepicker m; htmlFilepicker := htmlFilepicker m;
     textInput := textInput m; progress := progress m; currentView := currentView m;
     csvFilePath := csvFilePath m; htmlFilePath := htmlFilePath m; subject := subject m;
     confirmed := confirmed m; quitting := quitting m; cursor := x;
     startTime := startTime m; tag := tag m; quitTimer := quitTimer m;
     windowSize := windowSize m |}.

Definition set_startTime (x : Time) (m : model) : model :=
  {| list_ := list_ m; csvFilepicker := csvFilepicker m; htmlFilepicker := htmlFilepicker m;
     textInput := textInput m; progress := progress m; currentView := currentView m;
     csvFilePath := csvFilePath m; htmlFilePath := htmlFilePath m; subject := subject m;
     confirmed := confirmed m; quitting := quitting m; cursor := cursor m;
     startTime := x; tag := tag m; quitTimer := quitTimer m;
     windowSize := windowSize m |}.

Definition set_tag (x : Z) (m : model) : model :=
  {| list_ := list_ m; csvFilepicker := csvFilepicker m; htmlFilepicker := htmlFilepicker m;
     textInput := textInput m; progress := progress m; currentView := currentView m;
     csvFilePath := csvFilePath m; htmlFilePath := htmlFilePath m; subject := subject m;
     confirmed := confirmed m; quitting := quitting m; cursor := cursor m;
     startTime := startTime m; tag := x; quitTimer := quitTimer m;
     windowSize := windowSize m |}.

Definition set_windowSize (x : Z * Z) (m : model) : model :=
  {| list_ := list_ m; csvFilepicker := csvFilepicker m; htmlFilepicker := htmlFilepicker m;
     textInput := textInput m; progress := progress m; currentView := currentView m;
     csvFilePath := csvFilePath m; htmlFilePath := htmlFilePath m; subject := subject m;
     confirmed := confirmed m; quitting := quitting m; cursor := cursor m;
     startTime := startTime m; tag := tag m; quitTimer := quitTimer m;
     windowSize := x |}.

(** [initialModel]; [currentDir] is what [os.UserHomeDir()] returned (the
    empty string when it failed: the error is dropped). *)
Definition initialModel (currentDir : string) : model :=
  let csvFp := filepicker_New [".csv"] currentDir in
  let htmlFp := filepicker_New [".html"] currentDir in
  let ti := textinput_New "Enter email subject" in
  let items :=
    [ {| title := "CSV and HTML Upload"; description := "Pick CSV and HTML files for email" |};
      {| title := "Quit"; description := "Exit the application" |} ] in
  let homeList := list_New items in
  {| list_ := homeList; csvFilepicker := csvFp; htmlFilepicker := htmlFp;
     textInput := ti; progress := progress_New; currentView := homeView;
     csvFilePath := ""; htmlFilePath := ""; subject := "";
     confirmed := false; quitting := false; cursor := 0;
     startTime := 0; tag := 0; quitTimer := 0; windowSize := (0, 0) |}.

(** What a handler's prefix does: it returns, or control falls through to
    the statements after it with the model as updated so far. *)
Inductive Flow :=
| Return (r : model * Cmd)
| Continue (m : model).

(** [updateProgress] *)
Definition updateProgress (clk : Clock) (msg : Msg) (m : model) : model * Cmd :=
  match msg with
  | WindowSizeMsg Width _ =>
      let w := wrap64 (Width - padding * 2 - 4) in
      let w := if w >? maxWidth then maxWidth else w in
      (set_progress (progress_setWidth w (progress m)) m, CmdNil)
  | TickMsg _ =>
      let m := if IsZero (startTime m) then set_startTime (time_Now clk) m else m in
      let elapsed := time_Since clk (startTime m) in
      if elapsed >=? 5 * Second then (m, Quit)
      else
        let '(p, cmd) := progress_SetPercent (progressNum elapsed) (progress m) in
        (set_progress p m, Batch [tickCmd; cmd])
  | FrameMsg _ _ =>
      let '(p, cmd) := progress_Update msg (progress m) in
      (set_progress p m, cmd)
  | _ => (m, CmdNil)
  end.

(** The update of whichever file selector the stage designates. *)
Definition forwardToPicker (msg : Msg) (m : model) : model * Cmd :=
  if (csvFilePath m =? "")%string then
    let '(fp, cmd) := filepicker_Update msg (csvFilepicker m) in
    (set_csvFilepicker fp m, cmd)
  else
    let '(fp, cmd) := filepicker_Update msg (htmlFilepicker m) in
    (set_htmlFilepicker fp m, cmd).

(** [updateFileSelection] *)
Definition updateFileSelection (msg : Msg) (m : model) : model * Cmd :=
  match msg with
  | KeyMsg k =>
      if (key_String k =? "tab")%string then forwardToPicker msg m
      else if (key_String k =? "enter")%string then
        if (csvFilePath m =? "")%string then
          let '(fp, cmd) := filepicker_Update msg (csvFilepicker m) in
          let m := set_csvFilepicker fp m in
          let '(selected, path) := filepicker_DidSelectFile msg (csvFilepicker m) in
          if selected then
            let m := set_csvFilePath path m in
            let m :=
              set_htmlFilepicker
                (filepicker_setCurrentDirectory
                   (filepicker_CurrentDirectory (csvFilepicker m)) (htmlFilepicker m)) m in
            (m, CmdNil)
          else (m, cmd)
        else
          let '(fp, cmd) := filepicker_Update msg (htmlFilepicker m) in
          let m := set_htmlFilepicker fp m in
          let '(selected, path) := filepicker_DidSelectFile msg (htmlFilepicker m) in
          if selected then
            let m := set_htmlFilePath path m in
            let m := set_currentView subjectInputView m in
            (m, Blink)
          else (m, cmd)
      else forwardToPicker msg m
  | _ => forwardToPicker msg m
  end.

(** [updateSubjectInput] *)
Definition updateSubjectInput (msg : Msg) (m : model) : model * Cmd :=
  let '(ti, cmd) := textinput_Update msg (textInput m) in
  let m := set_textInput ti m in
  match msg with
  | KeyMsg k =>
      match key_Type k with
      | KeyEnter =>
          let m := set_subject (textinput_Value (textInput m)) m in
          let m := set_currentView confirmationView m in
          (m, cmd)
      | _ => (m, cmd)
      end
  | _ => (m, cmd)
  end.

(** [updateConfirmation] *)
Definition updateConfirmation (msg : Msg) (m : model) : model * Cmd :=
  match msg with
  | KeyMsg k =>
      let s := key_String k in
      if ((s =? "down") || (s =? "j"))%string then
        let m := set_cursor (wrap64 (cursor m + 1)) m in
        let m := if cursor m >? 1 then set_cursor 0 m else m in
        (m, CmdNil)
      else if ((s =? "up") || (s =? "k"))%string then
        let m := set_cursor (wrap64 (cursor m - 1)) m in
        let m := if cursor m <? 0 then set_cursor 1 m else m in
        (m, CmdNil)
      else if (s =? "enter")%string then
        let m := set_confirmed (cursor m =? 0) m in
        if confirmed m then
          let m := set_currentView progressView m in
          (m, tickCmd)
        else (m, Quit)
      else (m, CmdNil)
  | _ => (m, CmdNil)
  end.

(** The [case tea.KeyMsg] arm of [Update]: the switch on the current view,
    then the switch on the quit keys. *)
Definition updateKey (clk : Clock) (k : Key) (m : model) : Flow :=
  let s := key_String k in
  let perView :=
    match currentView m with
    | homeView =>
        if ((s =? "up") || (s =? "k"))%string then
          Continue (set_list (list_CursorUp (list_ m)) m)
        else if ((s =? "down") || (s =? "j"))%string then
          Continue (set_list (list_CursorDown (list_ m)) m)
        else if (s =? "enter")%string then
          match list_SelectedItem (list_ m) with
          | Some selectedItem =>
              if (title selectedItem =? "CSV and HTML Upload")%string then
                let m := set_currentView fileSelectionView m in
                Return (m, filepicker_Init (csvFilepicker m))
              else if (title selectedItem =? "Quit")%string then
                let m := set_quitting true m in
                Return (m, Quit)
              else Continue m
          | None => Continue m
          end
        else Continue m
    | quitView =>
        if time_Since clk (quitTimer m) >=? 5 * Second then Return (m, Quit)
        else Continue m
    | progressView =>
        let m := set_tag (wrap64 (tag m + 1)) m in
        Return (m, Tick debounceDuration (ReplyExit (tag m)))
    | _ => Continue m
    end in
  match perView with
  | Return r => Return r
  | Continue m =>
      if ((s =? "ctrl+c") || (s =? "q"))%string then
        let m := set_quitting true m in
        Return (m, Quit)
      else Continue m
  end.

(** The type switch that opens [Update]. *)
Definition updateByType (clk : Clock) (msg : Msg) (m : model) : Flow :=
  match msg with
  | WindowSizeMsg Width Height =>
      let m := set_windowSize (Width, Height) m in
      let '(h, v) := style_GetFrameSize in
      Continue (set_list (list_SetSize (wrap64 (Width - h)) (wrap64 (Height - v)) (list_ m)) m)
  | KeyMsg k => updateKey clk k m
  | MouseMsg => Return (m, CmdNil)
  | ExitMsg n =>
      match currentView m with
      | progressView =>
          if n =? tag m then
            let m := set_quitting true m in
            Return (m, Quit)
          else Continue m
      | _ => Continue m
      end
  | _ => Continue m
  end.

(** [model.Update] *)
Definition Update (clk : Clock) (msg : Msg) (m : model) : model * Cmd :=
  match updateByType clk msg m with
  | Return r => r
  | Continue m =>
      let '(l, cmd) := list_Update msg (list_ m) in
      let m := set_list l m in
      match currentView m with
      | fileSelectionView => updateFileSelection msg m
      | subjectInputView => updateSubjectInput msg m
      | confirmationView => updateConfirmation msg m
      | progressView => updateProgress clk msg m
      | _ => (m, cmd)
      end
  end.

(** What [p.Run()] hands back to [main]: the final model and the error. *)
Definition RunResult : Type := model * option string.

(** [main], from the result of [p.Run()] on: the text written to standard
    output and the exit status. *)
Definition main (res : RunResult) : string * Z :=
  let '(finalModel, err) := res in
  match err with
  | Some e => (("Error: " ++ e)%string, 1)
  | None =>
      if confirmed finalModel then
        (sentLine (csvFilePath finalModel) (htmlFilePath finalModel) (subject finalModel), 0)
      else (cancelledLine, 0)
  end.

(** The event loop over the messages the host delivers, each with the clock
    readings its handling observes.  The loop ends when a handler's command
    requests it; [None] is a loop still waiting for its next message. *)
Fixpoint Run (evs : list (Clock * Msg)) (m : model) : option model :=
  match evs with
  | [] => None
  | (clk, msg) :: evs' =>
      let '(m', cmd) := Update clk msg m in
      if requestsQuit cmd then Some m' else Run evs' m'
  end.

(** The models the loop passes through, the first one included. *)
Fixpoint trace (evs : list (Clock * Msg)) (m : model) : list model :=
  match evs with
  | [] => [m]
  | (clk, msg) :: evs' =>
      let '(m', cmd) := Update clk msg m in
      if requestsQuit cmd then [m; m'] else m :: trace evs' m'
  end.

End WithWidgets.
End Main.

(** * [src/unnamed/part_000], the earlier variant *)

Module Legacy.

(** The screens: the constants [fileSelectionView] ... [progressView]. *)
Inductive View :=
| fileSelectionView | subjectInputView | confirmationView | progressView.

Definition padding : Z := 2.
Definition maxWidth : Z := 80.

Section WithWidgets.
Context {W : Widgets}.

(** [type model struct]; [err] is never assigned and is left out. *)
Record model := {
  csvFilepicker : filepicker_Model;
  htmlFilepicker : filepicker_Model;
  textInput : textinput_Model;
  progress : progress_Model;
  currentView : View;
  csvFilePath : string;
  htmlFilePath : string;
  subject : string;
  confirmed : bool;
  quitting : bool;
  cursor : Z;
  startTime : Time
}.

Definition set_csvFilepicker (x : filepicker_Model) (m : model) : model :=
  {| csvFilepicker := x; htmlFilepicker := htmlFilepicker m; textInput := textInput m;
     progress := progress m; currentView := currentView m; csvFilePath := csvFilePath m;
     htmlFilePath := htmlFilePath m; subject := subject m; confirmed := confirmed m;
     quitting := quitting m; cursor := cursor m; startTime := startTime m |}.

Definition set_htmlFilepicker (x : filepicker_Model) (m : model) : model :=
  {| csvFilepicker := csvFilepicker m; htmlFilepicker := x; textInput := textInput m;
     progress := progress m; currentView := currentView m; csvFilePath := csvFilePath m;
     htmlFilePath := htmlFilePath m; subject := subject m; confirmed := confirmed m;
     quitting := quitting m; cursor := cursor m; startTime := startTime m |}.

Definition set_textInput (x : textinput_Model) (m : model) : model :=
  {| csvFilepicker := csvFilepicker m; htmlFilepicker := htmlFilepicker m; textInput := x;
     progress := progress m; currentView := currentView m; csvFilePath := csvFilePath m;
     htmlFilePath := htmlFilePath m; subject := subject m; confirmed := confirmed m;
     quitting := quitting m; cursor := cursor m; startTime := startTime m |}.

Definition set_progress (x : progress_Model) (m : model) : model :=
  {| csvFilepicker := csvFilepicker m; htmlFilepicker := htmlFilepicker m;
     textInput := textInput m; progress := x; currentView := currentView m;
     csvFilePath := csvFilePath m; htmlFilePath := htmlFilePath m; subject := subject m;
     confirmed := confirmed m; quitting := quitting m; cursor := cursor m;
     startTime := startTime m |}.

Definition set_currentView (x : View) (m : model) : model :=
  {| csvFilepicker := csvFilepicker m; htmlFilepicker := htmlFilepicker m;
     textInput := textInput m; progress := progress m; currentView := x;
     csvFilePath := csvFilePath m; htmlFilePath := htmlFilePath m; subject := subject m;
     confirmed := confirmed m; quitting := quitting m; cursor := cursor m;
     startTime := startTime m |}.

Definition set_csvFilePath (x : string) (m : model) : model :=
  {| csvFilepicker := csvFilepicker m; htmlFilepicker := htmlFilepicker m;
     textInput := textInput m; progress := progress m; currentView := currentView m;
     csvFilePath := x; htmlFilePath := htmlFilePath m; subject := subject m;
     confirmed := confirmed m; quitting := quitting m; cursor := cursor m;
     startTime := startTime m |}.

Definition set_htmlFilePath (x : string) (m : model) : model :=
  {| csvFilepicker := csvFilepicker m; htmlFilepicker := htmlFilepicker m;
     textInput := textInput m; progress := progress m; currentView := currentView m;
     csvFilePath := csvFilePath m; htmlFilePath := x; subject := subject m;
     confirmed := confirmed m; quitting := quitting m; cursor := cursor m;
     startTime := startTime m |}.

Definition set_subject (x : string) (m : model) : model :=
  {| csvFilepicker := csvFilepicker m; htmlFilepicker := htmlFilepicker m;
     textInput := textInput m; progress := progress m; currentView := currentView m;
     csvFilePath := csvFilePath m; htmlFilePath := htmlFilePath m; subject := x;
     confirmed := confirmed m; quitting := quitting m; cursor := cursor m;
     startTime := startTime m |}.

Definition set_confirmed (x : bool) (m : model) : model :=
  {| csvFilepicker := csvFilepicker m; htmlFilepicker := htmlFilepicker m;
     textInput := textInput m; progress := progress m; currentView := currentView m;
     csvFilePath := csvFilePath m; htmlFilePath := htmlFilePath m; subject := subject m;
     confirmed := x; quitting := quitting m; cursor := cursor m;
     startTime := startTime m |}.

Definition set_quitting (x : bool) (m : model) : model :=
  {| csvFilepicker := csvFilepicker m; htmlFilepicker := htmlFilepicker m;
     textInput := textInput m; progress := progress m; currentView := currentView m;
     csvFilePath := csvFilePath m; htmlFilePath := htmlFilePath m; subject := subject m;
     confirmed := confirmed m; quitting := x; cursor := cursor m;
     startTime := startTime m |}.

Definition set_cursor (x : Z) (m : model) : model :=
  {| csvFilepicker := csvFilepicker m; htmlFilepicker := htmlFilepicker m;
     textInput := textInput m; progress := progress m; currentView := currentView m;
     csvFilePath := csvFilePath m; htmlFilePath := htmlFilePath m; subject := subject m;
     confirmed := confirmed m; quitting := quitting m; cursor := x;
     startTime := startTime m |}.

Definition set_startTime (x : Time) (m : model) : model :=
  {| csvFilepicker := csvFilepicker m; htmlFilepicker := htmlFilepicker m;
     textInput := textInput m; progress := progress m; currentView := currentView m;
     csvFilePath := csvFilePath m; htmlFilePath := htmlFilePath m; subject := subject m;
     confirmed := confirmed m; quitting := quitting m; cursor := cursor m;
     startTime := x |}.

(** [initialModel]; [home] is what the two calls of [os.UserHomeDir()]
    returned. *)
Definition initialModel (home : string) : model :=
  let csvFp := filepicker_New [".csv"] home in
  let htmlFp := filepicker_New [".html"] home in
  let ti := textinput_New "Enter email subject" in
  {| csvFilepicker := csvFp; htmlFilepicker := htmlFp; textInput := ti;
     progress := progress_New; currentView := fileSelectionView;
     csvFilePath := ""; htmlFilePath := ""; subject := "";
     confirmed := false; quitting := false; cursor := 0; startTime := 0 |}.

(** [updateProgress] *)
Definition updateProgress (clk : Clock) (msg : Msg) (m : model) : model * Cmd :=
  match msg with
  | WindowSizeMsg Width _ =>
      let w := wrap64 (Width - padding * 2 - 4) in
      let w := if w >? maxWidth then maxWidth else w in
      (set_progress (progress_setWidth w (progress m)) m, CmdNil)
  | TickMsg _ =>
      let m := if IsZero (startTime m) then set_startTime (time_Now clk) m else m in
      let elapsed := time_Since clk (startTime m) in
      if elapsed >=? 5 * Second then (m, Quit)
      else
        let '(p, cmd) := progress_SetPercent (progressNum elapsed) (progress m) in
        (set_progress p m, Batch [tickCmd; cmd])
  | FrameMsg _ _ =>
      let '(p, cmd) := progress_Update msg (progress m) in
      (set_progress p m, cmd)
  | _ => (m, CmdNil)
  end.

(** What the switch that opens [updateFileSelection] does: it returns, or
    control falls through to the statements after it with the model and the
    command [cmd] as they stand. *)
Inductive Flow :=
| Return (r : model * Cmd)
| Continue (r : model * Cmd).

(** The switch that opens [updateFileSelection]. *)
Definition selectFile (msg : Msg) (m : model) : Flow :=
  match msg with
  | KeyMsg k =>
      if (key_String k =? "tab")%string then
        if (csvFilePath m =? "")%string then
          let '(fp, cmd) := filepicker_Update msg (csvFilepicker m) in
          Continue (set_csvFilepicker fp m, cmd)
        else
          let '(fp, cmd) := filepicker_Update msg (htmlFilepicker m) in
          Continue (set_htmlFilepicker fp m, cmd)
      else if (key_String k =? "enter")%string then
        if (csvFilePath m =? "")%string then
          let '(selected, path) := filepicker_DidSelectFile msg (csvFilepicker m) in
          if selected then
            let m := set_csvFilePath path m in
            let m :=
              set_htmlFilepicker
                (filepicker_setCurrentDirectory
                   (filepicker_CurrentDirectory (csvFilepicker m)) (htmlFilepicker m)) m in
            Continue (m, CmdNil)
          else Continue (m, CmdNil)
        else
          let '(selected, path) := filepicker_DidSelectFile msg (htmlFilepicker m) in
          if selected then
            let m := set_htmlFilePath path m in
            let m := set_currentView subjectInputView m in
            Return (m, Blink)
          else Continue (m, CmdNil)
      else Continue (m, CmdNil)
  | _ => Continue (m, CmdNil)
  end.

(** [updateFileSelection] *)
Definition updateFileSelection (msg : Msg) (m : model) : model * Cmd :=
  match selectFile msg m with
  | Return r => r
  | Continue (m, cmd) =>
      let '(fp, csvCmd) := filepicker_Update msg (csvFilepicker m) in
      let m := set_csvFilepicker fp m in
      let '(fp, htmlCmd) := filepicker_Update msg (htmlFilepicker m) in
      let m := set_htmlFilepicker fp m in
      (m, Batch [cmd; csvCmd; htmlCmd])
  end.

(** [updateSubjectInput] *)
Definition updateSubjectInput (msg : Msg) (m : model) : model * Cmd :=
  let '(ti, cmd) := textinput_Update msg (textInput m) in
  let m := set_textInput ti m in
  match msg with
  | KeyMsg k =>
      match key_Type k with
      | KeyEnter =>
          let m := set_subject (textinput_Value (textInput m)) m in
          let m := set_currentView confirmationView m in
          (m, cmd)
      | _ => (m, cmd)
      end
  | _ => (m, cmd)
  end.

(** [updateConfirmation] *)
Definition updateConfirmation (msg : Msg) (m : model) : model * Cmd :=
  match msg with
  | KeyMsg k =>
      let s := key_String k in
      if ((s =? "down") || (s =? "j"))%string then
        let m := set_cursor (wrap64 (cursor m + 1)) m in
        let m := if cursor m >? 1 then set_cursor 0 m else m in
        (m, CmdNil)
      else if ((s =? "up") || (s =? "k"))%string then
        let m := set_cursor (wrap64 (cursor m - 1)) m in
        let m := if cursor m <? 0 then set_cursor 1 m else m in
        (m, CmdNil)
      else if (s =? "enter")%string then
        let m := set_confirmed (cursor m =? 0) m in
        if confirmed m then
          let m := set_currentView progressView m in
          (m, tickCmd)
        else (m, Quit)
      else (m, CmdNil)
  | _ => (m, CmdNil)
  end.

(** [model.Update] *)
Definition Update (clk : Clock) (msg : Msg) (m : model) : model * Cmd :=
  let quit :=
    match msg with
    | KeyMsg k => ((key_String k =? "ctrl+c") || (key_String k =? "q"))%string
    | _ => false
    end in
  if quit then
    let m := set_quitting true m in
    (m, Quit)
  else
    match currentView m with
    | fileSelectionView => updateFileSelection msg m
    | subjectInputView => updateSubjectInput msg m
    | confirmationView => updateConfirmation msg m
    | progressView => updateProgress clk msg m
    end.

Definition RunResult : Type := model * option string.

(** [main], from the result of [p.Run()] on: the text written to standard
    output and the exit status. *)
Definition main (res : RunResult) : string * Z :=
  let '(finalModel, err) := res in
  match err with
  | Some e => (("Error: " ++ e)%string, 1)
  | None =>
      if confirmed finalModel then
        (sentLine (csvFilePath finalModel) (htmlFilePath finalModel) (subject finalModel), 0)
      else (cancelledLine, 0)
  end.

(** The event loop, as in [Main.Run]. *)
Fixpoint Run (evs : list (Clock * Msg)) (m : model) : option model :=
  match evs with
  | [] => None
  | (clk, msg) :: evs' =>
      let '(m', cmd) := Update clk msg m in
      if requestsQuit cmd then Some m' else Run evs' m'
  end.

Fixpoint trace (evs : list (Clock * Msg)) (m : model) : list model :=
  match evs with
  | [] => [m]
  | (clk, msg) :: evs' =>
      let '(m', cmd) := Update clk msg m in
      if requestsQuit cmd then [m; m'] else m :: trace evs' m'
  end.

End WithWidgets.
End Legacy.

(** * A small instance of the widgets

    Used to run the handlers on concrete inputs.  The directory browsed
    holds the two files [data.csv] and [tpl.html]; the text field appends
    the runes it is given. *)

Module Demo.

Definition hasSuffix (s suffix : string) : bool :=
  let n := String.length s in
  let k := String.length suffix in
  (k <=? n)%nat && (substring (n - k) k s =? suffix)%string.

Record picker := {
  AllowedTypes : list string;
  CurrentDirectory : string;
  entries : list string;
  selected : nat
}.

Definition picker_New (allowed : list string) (dir : string) : picker :=
  {| AllowedTypes := allowed; CurrentDirectory := dir;
     entries := ["data.csv"; "tpl.html"]; selected := 0%nat |}.

Definition picker_move (n : nat) (p : picker) : picker :=
  {| AllowedTypes := AllowedTypes p; CurrentDirectory := CurrentDirectory p;
     entries := entries p; selected := n |}.

Definition picker_Update (msg : Msg) (p : picker) : picker * Cmd :=
  match msg with
  | KeyMsg k =>
      if ((key_String k =? "down") || (key_String k =? "j"))%string then
        (picker_move (Nat.min (S (selected p)) (Nat.pred (List.length (entries p)))) p, CmdNil)
      else if ((key_String k =? "up") || (key_String k =? "k"))%string then
        (picker_move (Nat.pred (selected p)) p, CmdNil)
      else (p, CmdNil)
  | _ => (p, CmdNil)
  end.

Definition picker_DidSelectFile (msg : Msg) (p : picker) : bool * string :=
  match msg with
  | KeyMsg k =>
      if (key_String k =? "enter")%string then
        match nth_error (entries p) (selected p) with
        | Some name =>
            if existsb (hasSuffix name) (AllowedTypes p)
            then (true, (CurrentDirectory p ++ "/" ++ name)%string)
            else (false, "")
        | None => (false, "")
        end
      else (false, "")
  | _ => (false, "")
  end.

Definition picker_setCurrentDirectory (dir : string) (p : picker) : picker :=
  {| AllowedTypes := AllowedTypes p; CurrentDirectory := dir;
     entries := entries p; selected := selected p |}.

Record menu := { items : list item; index : nat }.

Definition menu_Up (l : menu) : menu :=
  {| items := items l; index := Nat.pred (index l) |}.

Definition menu_Down (l : menu) : menu :=
  {| items := items l;
     index := Nat.min (S (index l)) (Nat.pred (List.length (items l))) |}.

Definition field_Update (msg : Msg) (v : string) : string * Cmd :=
  match msg with
  | KeyMsg k =>
      match key_Type k with
      | KeyRunes => ((v ++ key_String k)%string, CmdNil)
      | _ => (v, CmdNil)
      end
  | _ => (v, CmdNil)
  end.

Record bar := { Width : Z; percent : Q }.

#[export] Instance widgets : Widgets := {|
  list_Model := menu;
  list_New := fun its => {| items := its; index := 0%nat |};
  list_SetSize := fun _ _ l => l;
  list_CursorUp := menu_Up;
  list_CursorDown := menu_Down;
  list_SelectedItem := fun l => nth_error (items l) (index l);
  list_Update := fun _ l => (l, CmdNil);
  style_GetFrameSize := (22, 23);
  filepicker_Model := picker;
  filepicker_New := picker_New;
  filepicker_Init := fun _ => WidgetCmd 1;
  filepicker_Update := picker_Update;
  filepicker_DidSelectFile := picker_DidSelectFile;
  filepicker_CurrentDirectory := CurrentDirectory;
  filepicker_setCurrentDirectory := picker_setCurrentDirectory;
  textinput_Model := string;
  textinput_New := fun _ => "";
  textinput_Update := field_Update;
  textinput_Value := fun v => v;
  progress_Model := bar;
  progress_New := {| Width := 40; percent := 0 |};
  progress_setWidth := fun w p => {| Width := w; percent := percent p |};
  progress_SetPercent := fun q p => ({| Width := Width p; percent := clamp01 q |}, WidgetCmd 2);
  progress_Update := fun _ p => (p, CmdNil)
|}.

(** Key presses. *)
Definition rune (s : string) : Msg := KeyMsg {| key_Type := KeyRunes; key_String := s |}.
Definition enter : Msg := KeyMsg {| key_Type := KeyEnter; key_String := "enter" |}.
Definition down : Msg := KeyMsg {| key_Type := KeyDown; key_String := "down" |}.
Definition up : Msg := KeyMsg {| key_Type := KeyUp; key_String := "up" |}.
Definition ctrlC : Msg := KeyMsg {| key_Type := KeyCtrlC; key_String := "ctrl+c" |}.

(** A clock that reads [t] nanoseconds after an origin well past the zero
    time. *)
Definition origin : Time := 63000000000 * Second.
Definition at_ (t : Z) : Clock := {| clock_Now := origin + t; clock_Since := origin + t |}.

(** The messages of the spec's first scenario up to the confirmation:
    pick [data.csv], pick [tpl.html], type the subject, commit it. *)
Definition fillIn : list (Clock * Msg) :=
  map (fun msg => (at_ 0, msg))
    [ enter; enter; down; enter;
      rune "W"; rune "e"; rune "l"; rune "c"; rune "o"; rune "m"; rune "e"; enter ].

(** The same messages without the selection of the Home menu, for the
    variant that starts on the file selection. *)
Definition fillInLegacy : list (Clock * Msg) := tl fillIn.

(** The ticks of a progress run, one second apart. *)
Definition ticks : list (Clock * Msg) :=
  map (fun s => (at_ (s * Second), TickMsg (origin + s * Second))) [0; 1; 2; 3; 4; 5].

Definition home : string := "/home/u".

(** The models a run of each variant reaches from its initial model. *)
Definition start : Main.model := Main.initialModel home.
Definition startLegacy : Legacy.model := Legacy.initialModel home.

Definition after (evs : list (Clock * Msg)) : Main.model :=
  last (Main.trace evs start) start.
Definition afterLegacy (evs : list (Clock * Msg)) : Legacy.model :=
  last (Legacy.trace evs startLegacy) startLegacy.

(** On the subject input, with [Welcome] typed and not yet committed. *)
Definition onSubject : Main.model := after (removelast fillIn).
Definition onSubjectLegacy : Legacy.model := afterLegacy (removelast fillInLegacy).

(** On the confirmation, the cursor on Yes. *)
Definition onConfirmation : Main.model := after fillIn.
Definition onConfirmationLegacy : Legacy.model := afterLegacy fillInLegacy.

(** On the progress screen, before the first tick. *)
Definition onProgress : Main.model := after (fillIn ++ [(at_ 0, enter)])%list.
Definition onProgressLegacy : Legacy.model :=
  afterLegacy (fillInLegacy ++ [(at_ 0, enter)])%list.

(** On the progress screen, the first tick handled at the origin. *)
Definition ticking : Main.model :=
  after (fillIn ++ [(at_ 0, enter); (at_ 0, TickMsg origin)])%list.
Definition tickingLegacy : Legacy.model :=
  afterLegacy (fillInLegacy ++ [(at_ 0, enter); (at_ 0, TickMsg origin)])%list.

End Demo.

(** * The path through the wizard *)

(** The steps of the wizard: the screens, the file selection split into its
    two stages (A while [csvFilePath] is empty, B afterwards).
    [QuitCountdown] is the [quitView] of main.go. *)
Inductive Stage :=
| Home | FileSelectionA | FileSelectionB | SubjectInput | Confirmation | Progress
| QuitCountdown.

Definition Stage_eqb (a b : Stage) : bool :=
  match a, b with
  | Home, Home | FileSelectionA, FileSelectionA | FileSelectionB, FileSelectionB
  | SubjectInput, SubjectInput | Confirmation, Confirmation | Progress, Progress
  | QuitCountdown, QuitCountdown => true
  | _, _ => false
  end.

Definition wizardPath : list Stage :=
  [Home; FileSelectionA; FileSelectionB; SubjectInput; Confirmation; Progress].




(** A sequence of steps with every run of equal steps shortened to one. *)
Fixpoint compress (l : list Stage) : list Stage :=
  match l with
  | [] => []
  | a :: l' =>
      match compress l' with
      | [] => [a]
      | b :: r => if Stage_eqb a b then b :: r else a :: b :: r
      end
  end.


Definition Main_stageOf {W : Widgets} (m : Main.model) : Stage :=
  match Main.currentView m with
  | Main.homeView => Home
  | Main.fileSelectionView =>
      if (Main.csvFilePath m =? "")%string then FileSelectionA else FileSelectionB
  | Main.subjectInputView => SubjectInput
  | Main.confirmationView => Confirmation
  | Main.progressView => Progress
  | Main.quitView => QuitCountdown
  end.

Definition Legacy_stageOf {W : Widgets} (m : Legacy.model) : Stage :=
  match Legacy.currentView m with
  | Legacy.fileSelectionView =>
      if (Legacy.csvFilePath m =? "")%string then FileSelectionA else FileSelectionB
  | Legacy.subjectInputView => SubjectInput
  | Legacy.confirmationView => Confirmation
  | Legacy.progressView => Progress
  end.

(** The steps a run passes through, in order. *)
Definition Main_path {W : Widgets} (evs : list (Clock * Msg)) (m : Main.model) : list Stage :=
  compress (map Main_stageOf (Main.trace evs m)).



(** The screens on which a quit key ends the run at once. *)
Definition Main_quitsAtOnce (v : Main.View) : bool :=
  match v with
  | Main.homeView | Main.fileSelectionView | Main.subjectInputView
  | Main.confirmationView => true
  | Main.progressView | Main.quitView => false
  end.

(** The confirm key of the subject input: [msg.Type == tea.KeyEnter]. *)
Definition isConfirmKey (msg : Msg) : bool :=
  match msg with
  | KeyMsg k => match key_Type k with KeyEnter => true | _ => false end
  | _ => false
  end.

(** The messages that [Main.Update] hands on to the handler of the active
    screen: not the quit keys and not the mouse. *)
Definition Main_dispatched (msg : Msg) : bool :=
  match msg with
  | KeyMsg k => negb (isQuitKey k)
  | MouseMsg => false
  | _ => true
  end.

(** The same for [Legacy.Update]: all but the quit keys. *)
Definition Legacy_dispatched (msg : Msg) : bool :=
  match msg with
  | KeyMsg k => negb (isQuitKey k)
  | _ => true
  end.

(** The keys the confirmation screen answers to. *)
Definition isDownKey (k : Key) : bool :=
  ((key_String k =? "down") || (key_String k =? "j"))%string.

Definition isUpKey (k : Key) : bool :=
  ((key_String k =? "up") || (key_String k =? "k"))%string.

Definition isEnterKey (k : Key) : bool := (key_String k =? "enter")%string.

(** The cursor of the confirmation is on Yes or on No. *)
Definition cursorOk (c : Z) : bool := (c =? 0) || (c =? 1).

(** [htmlFilePath] is set only if [csvFilePath] is. *)
Definition pathsOrdered (csv html : string) : bool := implb (isSet html) (isSet csv).

Definition Main_onProgress {W : Widgets} (m : Main.model) : bool :=
  match Main.currentView m with
  | Main.progressView => true
  | _ => false
  end.

Definition Legacy_onProgress {W : Widgets} (l : Legacy.model) : bool :=
  match Legacy.currentView l with
  | Legacy.progressView => true
  | _ => false
  end.

Definition isTick (msg : Msg) : bool :=
  match msg with
  | TickMsg _ => true
  | _ => false
  end.

(** * Further definitions *)

(** The range of Go's [int]. *)
Definition inInt64 (z : Z) : bool := (- 2 ^ 63 <=? z) && (z <? 2 ^ 63).

(** What a model of main.go still has of its initial values on each screen:
    every field is as [initialModel] left it until the wizard reaches the
    screen that owns it.  The countdown screen is never active. *)
Definition Main_fresh {W : Widgets} (m : Main.model) : bool :=
  let csv0 := (Main.csvFilePath m =? "")%string in
  let html0 := (Main.htmlFilePath m =? "")%string in
  let subject0 := (Main.subject m =? "")%string in
  let cursor0 := Main.cursor m =? 0 in
  let confirmed0 := negb (Main.confirmed m) in
  let progress0 := (Main.startTime m =? 0) && (Main.tag m =? 0) in
  match Main.currentView m with
  | Main.homeView => csv0 && html0 && subject0 && cursor0 && confirmed0 && progress0
  | Main.fileSelectionView => html0 && subject0 && cursor0 && confirmed0 && progress0
  | Main.subjectInputView => subject0 && cursor0 && confirmed0 && progress0
  | Main.confirmationView => confirmed0 && progress0
  | Main.progressView => Main.confirmed m
  | Main.quitView => false
  end.

Definition Legacy_fresh {W : Widgets} (l : Legacy.model) : bool :=
  let html0 := (Legacy.htmlFilePath l =? "")%string in
  let subject0 := (Legacy.subject l =? "")%string in
  let cursor0 := Legacy.cursor l =? 0 in
  let confirmed0 := negb (Legacy.confirmed l) in
  let progress0 := Legacy.startTime l =? 0 in
  match Legacy.currentView l with
  | Legacy.fileSelectionView => html0 && subject0 && cursor0 && confirmed0 && progress0
  | Legacy.subjectInputView => subject0 && cursor0 && confirmed0 && progress0
  | Legacy.confirmationView => confirmed0 && progress0
  | Legacy.progressView => Legacy.confirmed l
  end.

(** The screens the two variants share. *)
Definition toLegacyView (v : Main.View) : option Legacy.View :=
  match v with
  | Main.fileSelectionView => Some Legacy.fileSelectionView
  | Main.subjectInputView => Some Legacy.subjectInputView
  | Main.confirmationView => Some Legacy.confirmationView
  | Main.progressView => Some Legacy.progressView
  | Main.homeView | Main.quitView => None
  end.

(** A model of main.go on a shared screen, read as a model of the earlier
    variant: the fields the two structs have in common. *)
Definition toLegacy {W : Widgets} (m : Main.model) : option Legacy.model :=
  match toLegacyView (Main.currentView m) with
  | Some v =>
      Some {| Legacy.csvFilepicker := Main.csvFilepicker m;
              Legacy.htmlFilepicker := Main.htmlFilepicker m;
              Legacy.textInput := Main.textInput m;
              Legacy.progress := Main.progress m;
              Legacy.currentView := v;
              Legacy.csvFilePath := Main.csvFilePath m;
              Legacy.htmlFilePath := Main.htmlFilePath m;
              Legacy.subject := Main.subject m;
              Legacy.confirmed := Main.confirmed m;
              Legacy.quitting := Main.quitting m;
              Legacy.cursor := Main.cursor m;
              Legacy.startTime := Main.startTime m |}
  | None => None
  end.

(** The messages on which main.go does what the earlier variant does: on
    the subject input and the confirmation all but the mouse; on the
    Progress screen the ticks, the frames of the indicator, the widgets' own
    messages and the stale exit messages. *)
Definition variantsAgree {W : Widgets} (m : Main.model) (msg : Msg) : bool :=
  match Main.currentView m with
  | Main.subjectInputView | Main.confirmationView =>
      match msg with
      | MouseMsg => false
      | _ => true
      end
  | Main.progressView =>
      match msg with
      | TickMsg _ | FrameMsg _ _ | OtherMsg _ => true
      | ExitMsg n => negb (n =? Main.tag m)
      | _ => false
      end
  | _ => false
  end.

(** Whether the message is [enter] pressed while the Home menu has an item
    with the given title selected. *)
Definition choosesItem {W : Widgets} (t : string) (msg : Msg) (m : Main.model) : bool :=
  match msg with
  | KeyMsg k =>
      isEnterKey k &&
      match list_SelectedItem (Main.list_ m) with
      | Some selectedItem => (title selectedItem =? t)%string
      | None => false
      end
  | _ => false
  end.

Definition isQuitMsg (msg : Msg) : bool :=
  match msg with
  | KeyMsg k => isQuitKey k
  | _ => false
  end.

Definition isEnterMsg (msg : Msg) : bool :=
  match msg with
  | KeyMsg k => isEnterKey k
  | _ => false
  end.

Definition Main_onFileSelection {W : Widgets} (m : Main.model) : bool :=
  match Main.currentView m with
  | Main.fileSelectionView => true
  | _ => false
  end.

(** Widgets none of whose commands asks for the end of the loop. *)
Definition quietWidgets (W : Widgets) : Prop :=
  (forall msg x, requestsQuit (snd (list_Update msg x)) = false) /\
  (forall x, requestsQuit (filepicker_Init x) = false) /\
  (forall msg x, requestsQuit (snd (filepicker_Update msg x)) = false) /\
  (forall msg x, requestsQuit (snd (textinput_Update msg x)) = false) /\
  (forall q x, requestsQuit (snd (progress_SetPercent q x)) = false) /\
  (forall msg x, requestsQuit (snd (progress_Update msg x)) = false).

(** Why a handler of main.go asked for the end of the loop. *)
Inductive MainEnding {W : Widgets} (clk : Clock) (msg : Msg) (m : Main.model) : Prop :=
| EndsQuitting :
    Main.quitting (fst (Main.Update clk msg m)) = true -> MainEnding clk msg m
| EndsDeclined :
    Main.currentView m = Main.confirmationView -> isEnterMsg msg = true ->
    Main.cursor m <> 0 -> MainEnding clk msg m
| EndsSent :
    Main.currentView m = Main.progressView -> isTick msg = true ->
    5 * Second <= time_Since clk (Main.startTime (fst (Main.Update clk msg m))) ->
    MainEnding clk msg m.

Inductive LegacyEnding {W : Widgets} (clk : Clock) (msg : Msg) (l : Legacy.model) : Prop :=
| LegacyEndsQuitting :
    isQuitMsg msg = true -> LegacyEnding clk msg l
| LegacyEndsDeclined :
    Legacy.currentView l = Legacy.confirmationView -> isEnterMsg msg = true ->
    Legacy.cursor l <> 0 -> LegacyEnding clk msg l
| LegacyEndsSent :
    Legacy.currentView l = Legacy.progressView -> isTick msg = true ->
    5 * Second <= time_Since clk (Legacy.startTime (fst (Legacy.Update clk msg l))) ->
    LegacyEnding clk msg l.

(** * Rendering *)

(** What [View] uses of Lip Gloss and of the widgets, beside [Widgets]. *)
Class Renderers (W : Widgets) := {
  (* the [Render] of each style *)
  titleStyle_Render : string -> string;
  itemStyle_Render : string -> string;
  selectedItemStyle_Render : string -> string;
  asciiStyle_Render : string -> string;
  style_Render : string -> string;
  helpStyle : string -> string;
  quitTextStyle : string -> string;
  (* lipgloss.Place(width, height, lipgloss.Center, lipgloss.Center, str) *)
  lipgloss_Place : Z -> Z -> string -> string;
  (* lipgloss.JoinVertical(lipgloss.Center, strs...) *)
  lipgloss_JoinVertical : list string -> string;
  (* m.list.Items(), each with its assertion to [item]: None when !ok *)
  list_Items : list_Model -> list (option item);
  list_Index : list_Model -> Z;
  filepicker_View : filepicker_Model -> string;
  (* DidSelectFile(m.msg): the field [msg] is never assigned, the message is nil *)
  filepicker_DidSelectFile_nil : filepicker_Model -> bool * string;
  textinput_View : textinput_Model -> string;
  progress_View : progress_Model -> string;
  (* int(d.Seconds()), a float64 computation *)
  Duration_Seconds_int : Duration -> Z
}.

(** [%d] *)
Definition itoa (z : Z) : string := DecimalString.NilZero.string_of_int (Z.to_int z).

Definition asciiArt : string := "
 /$$$$$$$$                                  /$$                                      /$$$$$$  /$$           /$$      
| $$_____/                                 | $$                                     /$$__  $$| $$          | $$      
| $$     /$$$$$$  /$$   /$$ /$$$$$$$   /$$$$$$$  /$$$$$$   /$$$$$$   /$$$$$$$      | $$  \__/| $$ /$$   /$$| $$$$$$$ 
| $$$$$ /$$__  $$| $$  | $$| $$__  $$ /$$__  $$ /$$__  $$ /$$__  $$ /$$_____/      | $$      | $$| $$  | $$| $$__  $$
| $$__/| $$  \ $$| $$  | $$| $$  \ $$| $$  | $$| $$$$$$$$| $$  \__/|  $$$$$$       | $$      | $$| $$  | $$| $$  \ $$
| $$   | $$  | $$| $$  | $$| $$  | $$| $$  | $$| $$_____/| $$       \____  $$      | $$    $$| $$| $$  | $$| $$  | $$
| $$   |  $$$$$$/|  $$$$$$/| $$  | $$|  $$$$$$$|  $$$$$$$| $$       /$$$$$$$/      |  $$$$$$/| $$|  $$$$$$/| $$$$$$$/
|__/    \______/  \______/ |__/  |__/ \_______/ \_______/|__/      |_______/        \______/ |__/ \______/ |_______/ 
                                                                                                                     
".

Section Views.
Context {W : Widgets} {R : Renderers W}.

(** The loop of [renderHomeView] over the items, [i] being the index of the
    first of them. *)
Fixpoint renderItems (i index : Z) (items : list (option item)) : list string :=
  match items with
  | [] => []
  | None :: rest => renderItems (i + 1) index rest
  | Some it :: rest =>
      (if i =? index
       then selectedItemStyle_Render ("> " ++ title it)%string
       else itemStyle_Render ("  " ++ title it)%string)
        :: renderItems (i + 1) index rest
  end.

(** [renderHomeView] *)
Definition Main_renderHomeView (m : Main.model) : string :=
  let centeredAscii :=
    lipgloss_Place (fst (Main.windowSize m)) 10 (asciiStyle_Render asciiArt) in
  let items := renderItems 0 (list_Index (Main.list_ m)) (list_Items (Main.list_ m)) in
  let menu := lipgloss_JoinVertical items in
  let centeredMenu :=
    lipgloss_Place (fst (Main.windowSize m)) (wrap64 (snd (Main.windowSize m) - 20)) menu in
  lipgloss_JoinVertical [centeredAscii; centeredMenu].

(** What [View] writes for one stage of the file selection of main.go, from
    the selector's view on. *)
Definition Main_pickerPart (kind : string) (fp : filepicker_Model) : string :=
  let fpView := filepicker_View fp in
  (fpView ++
   (if (String.length fpView =? 0)%nat then "No files found in this directory." ++ newline
    else
      let '(selected, path) := filepicker_DidSelectFile_nil fp in
      if selected
      then itemStyle_Render ("Selected " ++ kind ++ " File: " ++ path)
      else ""))%string.

(** The two choices of the confirmation, as both variants write them. *)
Definition choiceLines (cursor : Z) : string :=
  ((if (cursor =? 0)%Z then itemStyle_Render "(•) Yes" else itemStyle_Render "( ) Yes")
     ++ newline ++
   (if (cursor =? 1)%Z then itemStyle_Render "(•) No" else itemStyle_Render "( ) No")
     ++ newline)%string.

(** What [View] of main.go has written into [s] when its switch is left;
    the Home screen returns from inside the switch and is not in here. *)
Definition Main_body (clk : Clock) (m : Main.model) : string :=
  match Main.currentView m with
  | Main.homeView => ""
  | Main.fileSelectionView =>
      (titleStyle_Render "File Selection" ++ newline ++ newline ++
       (if (Main.csvFilePath m =? "")%string then
          itemStyle_Render
            ("Current Directory: " ++ filepicker_CurrentDirectory (Main.csvFilepicker m))
            ++ newline ++
          itemStyle_Render "Select CSV file:" ++ newline ++
          Main_pickerPart "CSV" (Main.csvFilepicker m)
        else
          itemStyle_Render ("CSV file: " ++ Main.csvFilePath m) ++ newline ++
          itemStyle_Render
            ("Current Directory: " ++ filepicker_CurrentDirectory (Main.htmlFilepicker m))
            ++ newline ++
          itemStyle_Render "Select HTML file:" ++ newline ++
          Main_pickerPart "HTML" (Main.htmlFilepicker m)))%string
  | Main.subjectInputView =>
      (titleStyle_Render "Email Subject" ++ newline ++ newline ++
       itemStyle_Render "Enter the email subject:" ++ newline ++
       textinput_View (Main.textInput m))%string
  | Main.confirmationView =>
      (titleStyle_Render "Confirmation" ++ newline ++ newline ++
       itemStyle_Render ("CSV file: " ++ Main.csvFilePath m) ++ newline ++
       itemStyle_Render ("HTML file: " ++ Main.htmlFilePath m) ++ newline ++
       itemStyle_Render ("Subject: " ++ Main.subject m) ++ newline ++ newline ++
       itemStyle_Render "Send emails?" ++ newline ++
       choiceLines (Main.cursor m))%string
  | Main.progressView =>
      let pad := "  " in
      ((newline ++ pad ++ progress_View (Main.progress m) ++ newline ++ newline ++ pad
          ++ helpStyle "Sending emails...") ++
       (newline ++ newline ++ pad ++ helpStyle "Press q and wait for 5 second to quit"))%string
  | Main.quitView =>
      let remaining :=
        wrap64 (5 - Duration_Seconds_int (time_Since clk (Main.quitTimer m))) in
      quitTextStyle ("Quitting in " ++ itoa remaining ++ " seconds...")%string
  end.

(** Whether [View] of main.go adds the quit hint. *)
Definition Main_hinted (v : Main.View) : bool :=
  match v with
  | Main.homeView | Main.progressView | Main.quitView => false
  | _ => true
  end.

(** [View] of main.go for a model that is not quitting. *)
Definition Main_frame (clk : Clock) (m : Main.model) : string :=
  match Main.currentView m with
  | Main.homeView => Main_renderHomeView m
  | v =>
      let s := Main_body clk m in
      let s :=
        if Main_hinted v then (s ++ newline ++ itemStyle_Render "(q to quit)")%string
        else s in
      lipgloss_Place (fst (Main.windowSize m)) (snd (Main.windowSize m)) (style_Render s)
  end.

(** [model.View] of main.go; [clk] is the clock the countdown screen reads. *)
Definition Main_View (clk : Clock) (m : Main.model) : string :=
  if Main.quitting m then ("Goodbye!" ++ newline)%string else Main_frame clk m.

(** What [View] of the earlier variant has written into [s] when its switch
    is left. *)
Definition Legacy_body (l : Legacy.model) : string :=
  match Legacy.currentView l with
  | Legacy.fileSelectionView =>
      (titleStyle_Render "File Selection" ++ newline ++ newline ++
       (if (Legacy.csvFilePath l =? "")%string then
          itemStyle_Render "Select CSV file:" ++ newline ++
          filepicker_View (Legacy.csvFilepicker l)
        else
          itemStyle_Render ("CSV file: " ++ Legacy.csvFilePath l) ++ newline ++ newline ++
          itemStyle_Render "Select HTML file:" ++ newline ++
          filepicker_View (Legacy.htmlFilepicker l)))%string
  | Legacy.subjectInputView =>
      (titleStyle_Render "Email Subject" ++ newline ++ newline ++
       itemStyle_Render "Enter the email subject:" ++ newline ++
       textinput_View (Legacy.textInput l))%string
  | Legacy.confirmationView =>
      (titleStyle_Render "Confirmation" ++ newline ++ newline ++
       itemStyle_Render ("CSV file: " ++ Legacy.csvFilePath l) ++ newline ++
       itemStyle_Render ("HTML file: " ++ Legacy.htmlFilePath l) ++ newline ++
       itemStyle_Render ("Subject: " ++ Legacy.subject l) ++ newline ++ newline ++
       itemStyle_Render "Send emails?" ++ newline ++
       choiceLines (Legacy.cursor l))%string
  | Legacy.progressView =>
      let pad := "  " in
      (newline ++ pad ++ progress_View (Legacy.progress l) ++ newline ++ newline ++ pad
         ++ helpStyle "Sending emails...")%string
  end.

(** [View] of the earlier variant for a model that is not quitting. *)
Definition Legacy_frame (l : Legacy.model) : string :=
  let s := Legacy_body l in
  let s :=
    match Legacy.currentView l with
    | Legacy.progressView => s
    | _ => (s ++ newline ++ itemStyle_Render "(q to quit)")%string
    end in
  (s ++ newline)%string.

(** [model.View] of the earlier variant. *)
Definition Legacy_View (l : Legacy.model) : string :=
  if Legacy.quitting l then ("Goodbye!" ++ newline)%string else Legacy_frame l.

End Views.

(** Renderers that add nothing to the text they are given. *)
Module DemoView.

Definition items_of (l : @list_Model Demo.widgets) : list (option item) :=
  map Some (Demo.items l).

Definition index_of (l : @list_Model Demo.widgets) : Z := Z.of_nat (Demo.index l).

Definition picker_View (p : @filepicker_Model Demo.widgets) : string :=
  String.concat newline (Demo.entries p).

Definition field_View (v : @textinput_Model Demo.widgets) : string := ("> " ++ v)%string.

#[export] Instance renderers : Renderers Demo.widgets := {|
  titleStyle_Render := fun s => s;
  itemStyle_Render := fun s => s;
  selectedItemStyle_Render := fun s => s;
  asciiStyle_Render := fun s => s;
  style_Render := fun s => s;
  helpStyle := fun s => s;
  quitTextStyle := fun s => s;
  lipgloss_Place := fun _ _ s => s;
  lipgloss_JoinVertical := fun l => String.concat newline l;
  list_Items := items_of;
  list_Index := index_of;
  filepicker_View := picker_View;
  filepicker_DidSelectFile_nil := fun _ => (false, "");
  textinput_View := field_View;
  progress_View := fun _ => "[bar]";
  Duration_Seconds_int := fun d => Z.quot d Second
|}.

(** The file selection on a directory without entries. *)
Definition emptyPicker : Demo.picker :=
  {| Demo.AllowedTypes := [".csv"]; Demo.CurrentDirectory := "/empty";
     Demo.entries := []; Demo.selected := 0%nat |}.

Definition onEmptyDirectory : Main.model :=
  @Main.set_csvFilepicker Demo.widgets emptyPicker (Demo.after [(Demo.at_ 0, Demo.enter)]).

Definition onEmptyDirectoryLegacy : Legacy.model :=
  @Legacy.set_csvFilepicker Demo.widgets emptyPicker Demo.startLegacy.

End DemoView.

(** Whether the message is an [enter] key, under either of the two tests
    the handlers use: [msg.String() == "enter"] and [msg.Type == KeyEnter]. *)
Definition isAnyEnter (msg : Msg) : bool := isEnterMsg msg || isConfirmKey msg.

Definition isTabMsg (msg : Msg) : bool :=
  match msg with
  | KeyMsg k => (key_String k =? "tab")%string
  | _ => false
  end.

(** * Proofs *)

(** Case analysis on the innermost scrutinee of the goal, so that no
    equation between a handler's input and its result is lost. *)
Ltac break_inner :=
  match goal with
  | |- context [match ?x with _ => _ end] =>
      lazymatch x with
      | context [match _ with _ => _ end] => fail
      | _ => destruct x eqn:?
      end
  end.

Ltac unfold_main :=
  unfold Main.Update, Main.updateByType, Main.updateKey, Main.updateFileSelection,
    Main.forwardToPicker, Main.updateSubjectInput, Main.updateConfirmation,
    Main.updateProgress.

Ltac unfold_legacy :=
  unfold Legacy.Update, Legacy.updateFileSelection, Legacy.selectFile,
    Legacy.updateSubjectInput, Legacy.updateConfirmation, Legacy.updateProgress.

(** ** The loop ends on the first request *)

Lemma Main_Run_stops {W : Widgets} clk msg (m : Main.model) rest :
  requestsQuit (snd (Main.Update clk msg m)) = true ->
  Main.Run ((clk, msg) :: rest) m = Some (fst (Main.Update clk msg m)).
Proof.
  intros H. simpl. destruct (Main.Update clk msg m) as [m' c]. simpl in *.
  rewrite H. reflexivity.
Qed.

Lemma Legacy_Run_stops {W : Widgets} clk msg (l : Legacy.model) rest :
  requestsQuit (snd (Legacy.Update clk msg l)) = true ->
  Legacy.Run ((clk, msg) :: rest) l = Some (fst (Legacy.Update clk msg l)).
Proof.
  intros H. simpl. destruct (Legacy.Update clk msg l) as [m' c]. simpl in *.
  rewrite H. reflexivity.
Qed.

(** ** Invariants of a run *)

Section Runs.
Context {W : Widgets}.

(** A property that every [Update] keeps holds all along a run. *)
Lemma Main_trace_Forall (P : Main.model -> Prop) :
  (forall clk msg m, P m -> P (fst (Main.Update clk msg m))) ->
  forall evs m, P m -> Forall P (Main.trace evs m).
Proof.
  intros Hstep. induction evs as [|[clk msg] evs IH]; intros m Hm; simpl.
  - constructor; [exact Hm | constructor].
  - pose proof (Hstep clk msg m Hm) as Hm'.
    destruct (Main.Update clk msg m) as [m' cmd]; simpl in Hm'.
    destruct (requestsQuit cmd).
    + repeat constructor; assumption.
    + constructor; [exact Hm | apply IH, Hm'].
Qed.

Lemma Legacy_trace_Forall (P : Legacy.model -> Prop) :
  (forall clk msg l, P l -> P (fst (Legacy.Update clk msg l))) ->
  forall evs l, P l -> Forall P (Legacy.trace evs l).
Proof.
  intros Hstep. induction evs as [|[clk msg] evs IH]; intros m Hm; simpl.
  - constructor; [exact Hm | constructor].
  - pose proof (Hstep clk msg m Hm) as Hm'.
    destruct (Legacy.Update clk msg m) as [m' cmd]; simpl in Hm'.
    destruct (requestsQuit cmd).
    + repeat constructor; assumption.
    + constructor; [exact Hm | apply IH, Hm'].
Qed.

(** The model the loop hands back is one of the models of the run. *)
Lemma Main_Run_in_trace evs :
  forall m final, Main.Run evs m = Some final -> In final (Main.trace evs m).
Proof.
  induction evs as [|[clk msg] evs IH]; intros m final; simpl; [discriminate|].
  destruct (Main.Update clk msg m) as [m' cmd].
  destruct (requestsQuit cmd).
  - intros [= <-]. right. left. reflexivity.
  - intros H. right. apply IH, H.
Qed.

Lemma Legacy_Run_in_trace evs :
  forall l final, Legacy.Run evs l = Some final -> In final (Legacy.trace evs l).
Proof.
  induction evs as [|[clk msg] evs IH]; intros m final; simpl; [discriminate|].
  destruct (Legacy.Update clk msg m) as [m' cmd].
  destruct (requestsQuit cmd).
  - intros [= <-]. right. left. reflexivity.
  - intros H. right. apply IH, H.
Qed.

(** *** The cursor *)

Lemma Main_Update_cursor clk msg m :
  cursorOk (Main.cursor m) = true ->
  cursorOk (Main.cursor (fst (Main.Update clk msg m))) = true.
Proof.
  unfold cursorOk. intros H. apply orb_true_iff in H.
  destruct H as [H|H]; apply Z.eqb_eq in H; unfold_main;
    destruct msg; destruct (Main.currentView m) eqn:E; cbn;
    repeat (break_inner; cbn in *; rewrite ?E, ?H in *; cbn in * ); try discriminate;
    rewrite ?H; reflexivity.
Qed.

Lemma Legacy_Update_cursor clk msg l :
  cursorOk (Legacy.cursor l) = true ->
  cursorOk (Legacy.cursor (fst (Legacy.Update clk msg l))) = true.
Proof.
  unfold cursorOk. intros H. apply orb_true_iff in H.
  destruct H as [H|H]; apply Z.eqb_eq in H; unfold_legacy;
    destruct msg; destruct (Legacy.currentView l) eqn:E; cbn;
    repeat (break_inner; cbn in *; rewrite ?E, ?H in *; cbn in * ); try discriminate;
    rewrite ?H; reflexivity.
Qed.

(** *** The two paths *)

Lemma Main_Update_csv_kept clk msg m :
  isSet (Main.csvFilePath m) = true ->
  Main.csvFilePath (fst (Main.Update clk msg m)) = Main.csvFilePath m.
Proof.
  unfold isSet. intros H. apply negb_true_iff in H. unfold_main.
  destruct msg; destruct (Main.currentView m) eqn:E; cbn;
    repeat (break_inner; cbn in *; rewrite ?E, ?H in *; cbn in * ); try discriminate;
    reflexivity.
Qed.

Lemma Main_Update_html_kept clk msg m :
  isSet (Main.csvFilePath m) = false ->
  Main.htmlFilePath (fst (Main.Update clk msg m)) = Main.htmlFilePath m.
Proof.
  unfold isSet. intros H. apply negb_false_iff in H. unfold_main.
  destruct msg; destruct (Main.currentView m) eqn:E; cbn;
    repeat (break_inner; cbn in *; rewrite ?E, ?H in *; cbn in * ); try discriminate;
    reflexivity.
Qed.

Lemma Main_Update_pathsOrdered clk msg m :
  pathsOrdered (Main.csvFilePath m) (Main.htmlFilePath m) = true ->
  pathsOrdered (Main.csvFilePath (fst (Main.Update clk msg m)))
    (Main.htmlFilePath (fst (Main.Update clk msg m))) = true.
Proof.
  intros H. destruct (isSet (Main.csvFilePath m)) eqn:Ec.
  - rewrite (Main_Update_csv_kept clk msg m Ec). unfold pathsOrdered. rewrite Ec.
    destruct (isSet (Main.htmlFilePath _)); reflexivity.
  - rewrite (Main_Update_html_kept clk msg m Ec).
    unfold pathsOrdered in *. rewrite Ec in H.
    destruct (isSet (Main.htmlFilePath m)); [discriminate | reflexivity].
Qed.

Lemma Legacy_Update_csv_kept clk msg l :
  isSet (Legacy.csvFilePath l) = true ->
  Legacy.csvFilePath (fst (Legacy.Update clk msg l)) = Legacy.csvFilePath l.
Proof.
  unfold isSet. intros H. apply negb_true_iff in H. unfold_legacy.
  destruct msg; destruct (Legacy.currentView l) eqn:E; cbn;
    repeat (break_inner; cbn in *; rewrite ?E, ?H in *; cbn in * ); try discriminate;
    reflexivity.
Qed.

Lemma Legacy_Update_html_kept clk msg l :
  isSet (Legacy.csvFilePath l) = false ->
  Legacy.htmlFilePath (fst (Legacy.Update clk msg l)) = Legacy.htmlFilePath l.
Proof.
  unfold isSet. intros H. apply negb_false_iff in H. unfold_legacy.
  destruct msg; destruct (Legacy.currentView l) eqn:E; cbn;
    repeat (break_inner; cbn in *; rewrite ?E, ?H in *; cbn in * ); try discriminate;
    reflexivity.
Qed.

Lemma Legacy_Update_pathsOrdered clk msg l :
  pathsOrdered (Legacy.csvFilePath l) (Legacy.htmlFilePath l) = true ->
  pathsOrdered (Legacy.csvFilePath (fst (Legacy.Update clk msg l)))
    (Legacy.htmlFilePath (fst (Legacy.Update clk msg l))) = true.
Proof.
  intros H. destruct (isSet (Legacy.csvFilePath l)) eqn:Ec.
  - rewrite (Legacy_Update_csv_kept clk msg l Ec). unfold pathsOrdered. rewrite Ec.
    destruct (isSet (Legacy.htmlFilePath _)); reflexivity.
  - rewrite (Legacy_Update_html_kept clk msg l Ec).
    unfold pathsOrdered in *. rewrite Ec in H.
    destruct (isSet (Legacy.htmlFilePath l)); [discriminate | reflexivity].
Qed.

(** *** The confirmation *)

Lemma Main_Update_on_progress clk msg m :
  Main.currentView m = Main.progressView ->
  Main.confirmed (fst (Main.Update clk msg m)) = Main.confirmed m /\
  Main.currentView (fst (Main.Update clk msg m)) = Main.progressView /\
  Main.csvFilePath (fst (Main.Update clk msg m)) = Main.csvFilePath m /\
  Main.htmlFilePath (fst (Main.Update clk msg m)) = Main.htmlFilePath m /\
  Main.subject (fst (Main.Update clk msg m)) = Main.subject m.
Proof.
  intros E. unfold_main. rewrite E.
  destruct msg; cbn;
    repeat (break_inner; cbn in *; rewrite ?E in *; cbn in * ); try discriminate;
    repeat split; auto.
Qed.

Lemma Legacy_Update_on_progress clk msg l :
  Legacy.currentView l = Legacy.progressView ->
  Legacy.confirmed (fst (Legacy.Update clk msg l)) = Legacy.confirmed l /\
  Legacy.currentView (fst (Legacy.Update clk msg l)) = Legacy.progressView /\
  Legacy.csvFilePath (fst (Legacy.Update clk msg l)) = Legacy.csvFilePath l /\
  Legacy.htmlFilePath (fst (Legacy.Update clk msg l)) = Legacy.htmlFilePath l /\
  Legacy.subject (fst (Legacy.Update clk msg l)) = Legacy.subject l.
Proof.
  intros E. unfold_legacy. rewrite E.
  destruct msg; cbn;
    repeat (break_inner; cbn in *; rewrite ?E in *; cbn in * ); try discriminate;
    repeat split; auto.
Qed.

(** A confirmed model is on the Progress screen. *)
Lemma Main_Update_confirmed_on_progress clk msg m :
  implb (Main.confirmed m) (Main_onProgress m) = true ->
  implb (Main.confirmed (fst (Main.Update clk msg m)))
    (Main_onProgress (fst (Main.Update clk msg m))) = true.
Proof.
  unfold Main_onProgress. unfold_main. intros H.
  destruct msg; destruct (Main.currentView m) eqn:E; cbn;
    repeat (break_inner; cbn in *; rewrite ?E in *; cbn in * ); try discriminate;
    auto.
Qed.

Lemma Legacy_Update_confirmed_on_progress clk msg l :
  implb (Legacy.confirmed l) (Legacy_onProgress l) = true ->
  implb (Legacy.confirmed (fst (Legacy.Update clk msg l)))
    (Legacy_onProgress (fst (Legacy.Update clk msg l))) = true.
Proof.
  unfold Legacy_onProgress. unfold_legacy. intros H.
  destruct msg; destruct (Legacy.currentView l) eqn:E; cbn;
    repeat (break_inner; cbn in *; rewrite ?E in *; cbn in * ); try discriminate;
    auto.
Qed.

End Runs.

(** *** The start time *)

Section StartTime.
Context {W : Widgets}.





End StartTime.

(** ** The path *)



Section Path.
Context {W : Widgets}.





End Path.


(** The first scenario of the spec walks the whole path. *)
Example C1_full_path :
  Main_path (Demo.fillIn ++ (Demo.at_ 0, Demo.enter) :: Demo.ticks)%list
    Demo.start = wizardPath.
Proof. vm_compute. reflexivity. Qed.

(** ** The quit keys *)

Lemma isQuitKey_cases (k : Key) :
  isQuitKey k = true -> key_String k = "ctrl+c" \/ key_String k = "q".
Proof.
  unfold isQuitKey. intros H. apply orb_true_iff in H.
  destruct H as [H|H]; apply String.eqb_eq in H; auto.
Qed.

(** C2, as amended.  In main.go a quit key ([q] or [ctrl+c]) delivered on
    the Home, file selection, subject input or confirmation screen sets
    [quitting] and requests the end of the loop, and nothing else of the model
    changes: neither the screen's handler nor a widget has seen the key.  On
    the Progress screen the key is debounced instead: the tag is incremented
    and an exit message carrying the new tag is scheduled five seconds later,
    [quitting] is left as it was and no end of the loop is requested; the
    exit message, when it arrives with the tag still current, sets [quitting]
    and requests the end of the loop.  In the earlier variant the quit keys
    are checked before the dispatch on the screen, so they end the run on
    every screen, Progress included. *)
Theorem C2_quit_key :
  forall (W : Widgets) (clk clk' : Clock) (k : Key) (m : Main.model) (l : Legacy.model),
    isQuitKey k = true ->
    (Main_quitsAtOnce (Main.currentView m) = true ->
       Main.Update clk (KeyMsg k) m = (Main.set_quitting true m, Quit)) /\
    (Main.currentView m = Main.progressView ->
       let m' := Main.set_tag (wrap64 (Main.tag m + 1)) m in
       Main.Update clk (KeyMsg k) m
         = (m', Tick Main.debounceDuration (ReplyExit (Main.tag m'))) /\
       Main.quitting m' = Main.quitting m /\
       Main.Update clk' (ExitMsg (Main.tag m')) m' = (Main.set_quitting true m', Quit)) /\
    Legacy.Update clk (KeyMsg k) l = (Legacy.set_quitting true l, Quit).
Proof.
  intros W clk clk' k m l Hk.
  repeat split.
  - intros Hv. unfold_main.
    destruct (isQuitKey_cases k Hk) as [E|E]; rewrite E;
      destruct (Main.currentView m); try discriminate; reflexivity.
  - unfold_main. rewrite H. reflexivity.
  - unfold_main. simpl. rewrite H. rewrite Z.eqb_refl. reflexivity.
  - unfold Legacy.Update. unfold isQuitKey in Hk. rewrite Hk. reflexivity.
Qed.

(** The amended statement at work: a [q] on the Home screen of main.go and
    on the Progress screen of the earlier variant, a [q] followed by its
    exit message on the Progress screen of main.go. *)
Lemma C2_quit_key_witness :
  Main.Update (Demo.at_ 0) (Demo.rune "q") Demo.start
    = (Main.set_quitting true Demo.start, Quit) /\
  Main.Run [(Demo.at_ 0, Demo.rune "q"); (Demo.at_ (5 * Second), ExitMsg 1)] Demo.onProgress
    = Some (Main.set_quitting true (Main.set_tag 1 Demo.onProgress)) /\
  Legacy.Update (Demo.at_ 0) (Demo.rune "q") Demo.onProgressLegacy
    = (Legacy.set_quitting true Demo.onProgressLegacy, Quit).
Proof.
  pose proof (C2_quit_key Demo.widgets (Demo.at_ 0) (Demo.at_ (5 * Second))
                {| key_Type := KeyRunes; key_String := "q" |}
                Demo.start Demo.onProgressLegacy eq_refl) as [Hhome [_ Hlegacy]].
  pose proof (C2_quit_key Demo.widgets (Demo.at_ 0) (Demo.at_ (5 * Second))
                {| key_Type := KeyRunes; key_String := "q" |}
                Demo.onProgress Demo.onProgressLegacy eq_refl) as [_ [Hprogress _]].
  split; [exact (Hhome eq_refl) | split; [| exact Hlegacy]].
  destruct (Hprogress eq_refl) as (H1 & _ & H2).
  unfold Main.Run, Demo.rune. rewrite H1. simpl requestsQuit. cbv iota.
  change (Main.tag (Main.set_tag (wrap64 (Main.tag Demo.onProgress + 1)) Demo.onProgress))
    with 1 in H2.
  change (wrap64 (Main.tag Demo.onProgress + 1)) with 1 in H2 |- *.
  rewrite H2. reflexivity.
Defined.

(** The claim as it was stated fails on the Progress screen of main.go:
    after a [q] there, [quitting] is still false and the loop goes on. *)
Lemma C2_counterexample :
  Main.currentView Demo.onProgress = Main.progressView /\
  Main.quitting (fst (Main.Update (Demo.at_ 0) (Demo.rune "q") Demo.onProgress)) = false /\
  requestsQuit (snd (Main.Update (Demo.at_ 0) (Demo.rune "q") Demo.onProgress)) = false /\
  Main.Run [(Demo.at_ 0, Demo.rune "q")] Demo.onProgress = None.
Proof. vm_compute. repeat split. Qed.

(** ** The summary line *)

(** C3.  When the loop has ended without an error, [main] writes the line
    [Emails sent using CSV file: ..., HTML template: ..., and subject: ...]
    if the final model is confirmed and the line [Operation cancelled.]
    otherwise, each followed by a newline, and exits with status 0.  (When
    [p.Run()] reports an error, it is the error that is written, and the
    status is 1.) *)
Theorem C3_summary_line :
  forall (W : Widgets) (m : Main.model) (l : Legacy.model),
    Main.main (m, None)
      = (if Main.confirmed m
         then ("Emails sent using CSV file: " ++ Main.csvFilePath m
                 ++ ", HTML template: " ++ Main.htmlFilePath m
                 ++ ", and subject: " ++ Main.subject m ++ newline)%string
         else ("Operation cancelled." ++ newline)%string, 0) /\
    Legacy.main (l, None)
      = (if Legacy.confirmed l
         then ("Emails sent using CSV file: " ++ Legacy.csvFilePath l
                 ++ ", HTML template: " ++ Legacy.htmlFilePath l
                 ++ ", and subject: " ++ Legacy.subject l ++ newline)%string
         else ("Operation cancelled." ++ newline)%string, 0) /\
    (forall e, Main.main (m, Some e) = (("Error: " ++ e)%string, 1)) /\
    (forall e, Legacy.main (l, Some e) = (("Error: " ++ e)%string, 1)).
Proof.
  intros W m l. unfold Main.main, Legacy.main, sentLine, cancelledLine.
  destruct (Main.confirmed m), (Legacy.confirmed l); repeat split; reflexivity.
Qed.

(** The first two scenarios of the spec, run from the initial model to the
    line printed. *)
Example C3_scenario_yes :
  option_map (fun m => Main.main (m, None))
    (Main.Run (Demo.fillIn ++ (Demo.at_ 0, Demo.enter) :: Demo.ticks)%list Demo.start)
  = Some (("Emails sent using CSV file: /home/u/data.csv, HTML template: /home/u/tpl.html, and subject: Welcome"
            ++ newline)%string, 0).
Proof. vm_compute. reflexivity. Qed.

Example C3_scenario_no :
  option_map (fun m => Main.main (m, None))
    (Main.Run (Demo.fillIn ++ [(Demo.at_ 0, Demo.down); (Demo.at_ 0, Demo.enter)])%list
       Demo.start)
  = Some (("Operation cancelled." ++ newline)%string, 0).
Proof. vm_compute. reflexivity. Qed.

(** ** The progress screen *)









(** The elapsed times of the spec: 0 s, 1 s and 4.9 s keep the loop running
    with a fraction below one, 5 s ends it. *)
Example C4_elapsed_times :
  map (fun e => requestsQuit (snd (Main.Update (Demo.at_ e) (TickMsg 0) Demo.ticking)))
    [0; Second; 4900 * Millisecond; 5 * Second]
  = [false; false; false; true] /\
  map (fun e => Demo.percent
                  (Main.progress (fst (Main.Update (Demo.at_ e) (TickMsg 0) Demo.ticking))))
    [0; Second; 4900 * Millisecond]
  = [0%Q; (1000000000 # 5000000000)%Q; (4900000000 # 5000000000)%Q].
Proof. vm_compute. split; reflexivity. Qed.

(** ** The confirmation screen *)

(** C5.  On the Confirmation screen of either variant the key [enter] with
    the cursor on 0 (Yes) sets [confirmed], moves to the Progress screen and
    returns [tickCmd()], the 100 ms tick that the progress screen re-arms;
    with the cursor on 1 (No) it clears [confirmed] and returns [tea.Quit]:
    the screen stays the Confirmation screen and the loop ends on this
    message. *)
Theorem C5_confirmation_enter :
  forall (W : Widgets) (clk : Clock) (k : Key) (m : Main.model) (l : Legacy.model),
    key_String k = "enter" ->
    Main.currentView m = Main.confirmationView ->
    Legacy.currentView l = Legacy.confirmationView ->
    (let r := Main.Update clk (KeyMsg k) m in
     (Main.cursor m = 0 ->
        Main.confirmed (fst r) = true /\
        Main.currentView (fst r) = Main.progressView /\
        snd r = Tick (100 * Millisecond) ReplyTick) /\
     (Main.cursor m = 1 ->
        Main.confirmed (fst r) = false /\
        Main.currentView (fst r) = Main.confirmationView /\
        snd r = Quit /\
        forall rest, Main.Run ((clk, KeyMsg k) :: rest) m = Some (fst r))) /\
    (let r := Legacy.Update clk (KeyMsg k) l in
     (Legacy.cursor l = 0 ->
        Legacy.confirmed (fst r) = true /\
        Legacy.currentView (fst r) = Legacy.progressView /\
        snd r = Tick (100 * Millisecond) ReplyTick) /\
     (Legacy.cursor l = 1 ->
        Legacy.confirmed (fst r) = false /\
        Legacy.currentView (fst r) = Legacy.confirmationView /\
        snd r = Quit /\
        forall rest, Legacy.Run ((clk, KeyMsg k) :: rest) l = Some (fst r))).
Proof.
  intros W clk k m l Hk Hm Hl. cbv zeta. split.
  - assert (E : Main.Update clk (KeyMsg k) m
                = Main.updateConfirmation (KeyMsg k)
                    (Main.set_list (fst (list_Update (KeyMsg k) (Main.list_ m))) m)).
    { unfold Main.Update, Main.updateByType, Main.updateKey. rewrite Hk, Hm. cbn.
      destruct (list_Update (KeyMsg k) (Main.list_ m)) as [lst c0]. cbn.
      rewrite Hm. reflexivity. }
    split; intros Hc.
    + rewrite E. unfold Main.updateConfirmation. rewrite Hk. cbn. rewrite Hc. cbn.
      repeat split.
    + assert (Hq : snd (Main.Update clk (KeyMsg k) m) = Quit).
      { rewrite E. unfold Main.updateConfirmation. rewrite Hk. cbn. rewrite Hc.
        reflexivity. }
      split; [|split; [|split]].
      * rewrite E. unfold Main.updateConfirmation. rewrite Hk. cbn. rewrite Hc.
        reflexivity.
      * rewrite E. unfold Main.updateConfirmation. rewrite Hk. cbn. rewrite Hc. cbn.
        exact Hm.
      * exact Hq.
      * intros rest. apply Main_Run_stops. rewrite Hq. reflexivity.
  - assert (E : Legacy.Update clk (KeyMsg k) l = Legacy.updateConfirmation (KeyMsg k) l).
    { unfold Legacy.Update. rewrite Hk, Hl. reflexivity. }
    split; intros Hc.
    + rewrite E. unfold Legacy.updateConfirmation. rewrite Hk. cbn. rewrite Hc. cbn.
      repeat split.
    + assert (Hq : snd (Legacy.Update clk (KeyMsg k) l) = Quit).
      { rewrite E. unfold Legacy.updateConfirmation. rewrite Hk. cbn. rewrite Hc.
        reflexivity. }
      split; [|split; [|split]].
      * rewrite E. unfold Legacy.updateConfirmation. rewrite Hk. cbn. rewrite Hc.
        reflexivity.
      * rewrite E. unfold Legacy.updateConfirmation. rewrite Hk. cbn. rewrite Hc. cbn.
        exact Hl.
      * exact Hq.
      * intros rest. apply Legacy_Run_stops. rewrite Hq. reflexivity.
Qed.

Lemma C5_confirmation_enter_witness :
  (Main.confirmed (fst (Main.Update (Demo.at_ 0) Demo.enter Demo.onConfirmation)) = true /\
   Main.currentView (fst (Main.Update (Demo.at_ 0) Demo.enter Demo.onConfirmation))
     = Main.progressView /\
   snd (Main.Update (Demo.at_ 0) Demo.enter Demo.onConfirmation)
     = Tick (100 * Millisecond) ReplyTick) /\
  (Legacy.confirmed
     (fst (Legacy.Update (Demo.at_ 0) Demo.enter
             (Legacy.set_cursor 1 Demo.onConfirmationLegacy))) = false /\
   snd (Legacy.Update (Demo.at_ 0) Demo.enter
          (Legacy.set_cursor 1 Demo.onConfirmationLegacy)) = Quit).
Proof.
  assert (Hm : Main.currentView Demo.onConfirmation = Main.confirmationView)
    by (vm_compute; reflexivity).
  assert (Hl : Legacy.currentView (Legacy.set_cursor 1 Demo.onConfirmationLegacy)
               = Legacy.confirmationView)
    by (vm_compute; reflexivity).
  destruct (C5_confirmation_enter Demo.widgets (Demo.at_ 0)
              {| key_Type := KeyEnter; key_String := "enter" |}
              Demo.onConfirmation (Legacy.set_cursor 1 Demo.onConfirmationLegacy)
              eq_refl Hm Hl) as [[Hyes _] [_ Hno]].
  split.
  - apply Hyes. vm_compute. reflexivity.
  - destruct Hno as (H1 & _ & H2 & _); [reflexivity | split; assumption].
Defined.

(** ** The subject input *)

(** C6.  The handler of the Subject Input screen gives every message to the
    text field first and returns the text field's command.  When the message
    is the confirm key ([tea.KeyEnter]) the subject becomes the value of the
    text field as that delegation left it, and the screen becomes the
    Confirmation screen; the handler itself adds nothing to the value.  On
    any other message the subject and the screen are unchanged.  [Update]
    reaches this handler, on the Subject Input screen, with every message
    except a quit key and, in main.go, a mouse message. *)
Theorem C6_subject_commit :
  forall (W : Widgets) (clk : Clock) (msg : Msg) (m : Main.model) (l : Legacy.model),
    (let ti := textinput_Update msg (Main.textInput m) in
     let r := Main.updateSubjectInput msg m in
     (Main.textInput (fst r) = fst ti /\ snd r = snd ti) /\
     (if isConfirmKey msg
      then Main.subject (fst r) = textinput_Value (fst ti) /\
           Main.currentView (fst r) = Main.confirmationView
      else Main.subject (fst r) = Main.subject m /\
           Main.currentView (fst r) = Main.currentView m) /\
     (Main.currentView m = Main.subjectInputView -> Main_dispatched msg = true ->
      let u := Main.Update clk msg m in
      Main.textInput (fst u) = fst ti /\ snd u = snd ti /\
      Main.subject (fst u) = Main.subject (fst r) /\
      Main.currentView (fst u) = Main.currentView (fst r))) /\
    (let ti := textinput_Update msg (Legacy.textInput l) in
     let r := Legacy.updateSubjectInput msg l in
     (Legacy.textInput (fst r) = fst ti /\ snd r = snd ti) /\
     (if isConfirmKey msg
      then Legacy.subject (fst r) = textinput_Value (fst ti) /\
           Legacy.currentView (fst r) = Legacy.confirmationView
      else Legacy.subject (fst r) = Legacy.subject l /\
           Legacy.currentView (fst r) = Legacy.currentView l) /\
     (Legacy.currentView l = Legacy.subjectInputView -> Legacy_dispatched msg = true ->
      Legacy.Update clk msg l = r)).
Proof.
  intros W clk msg m l. cbv zeta. split.
  - split; [|split].
    + unfold Main.updateSubjectInput.
      destruct (textinput_Update msg (Main.textInput m)) as [ti c].
      destruct msg as [| k | | | | |]; try destruct (key_Type k); split; reflexivity.
    + unfold Main.updateSubjectInput, isConfirmKey.
      destruct (textinput_Update msg (Main.textInput m)) as [ti c].
      destruct msg as [| k | | | | |]; try destruct (key_Type k); split; reflexivity.
    + intros Hv Hd. unfold Main_dispatched, isQuitKey in Hd. unfold_main.
      destruct msg as [| k | | n | | |]; try discriminate Hd; cbn; rewrite ?Hv; cbn.
      all: try (apply negb_true_iff in Hd; apply orb_false_iff in Hd;
                destruct Hd as [Hd1 Hd2]; rewrite ?Hd1, ?Hd2; cbn).
      all: repeat (break_inner; cbn in *; rewrite ?Hv in * ); try discriminate;
        repeat split; reflexivity.
  - split; [|split].
    + unfold Legacy.updateSubjectInput.
      destruct (textinput_Update msg (Legacy.textInput l)) as [ti c].
      destruct msg as [| k | | | | |]; try destruct (key_Type k); split; reflexivity.
    + unfold Legacy.updateSubjectInput, isConfirmKey.
      destruct (textinput_Update msg (Legacy.textInput l)) as [ti c].
      destruct msg as [| k | | | | |]; try destruct (key_Type k); split; reflexivity.
    + intros Hv Hd. unfold Legacy_dispatched, isQuitKey in Hd. unfold Legacy.Update.
      rewrite Hv.
      destruct msg as [| k | | n | | |]; try reflexivity.
      apply negb_true_iff in Hd. rewrite Hd. reflexivity.
Qed.

(** The typed subject [Welcome] is committed by [enter] as it stands. *)
Lemma C6_subject_commit_witness :
  Main.subject (fst (Main.Update (Demo.at_ 0) Demo.enter Demo.onSubject)) = "Welcome" /\
  Main.currentView (fst (Main.Update (Demo.at_ 0) Demo.enter Demo.onSubject))
    = Main.confirmationView /\
  Legacy.subject (fst (Legacy.Update (Demo.at_ 0) Demo.enter Demo.onSubjectLegacy))
    = "Welcome" /\
  Legacy.currentView (fst (Legacy.Update (Demo.at_ 0) Demo.enter Demo.onSubjectLegacy))
    = Legacy.confirmationView.
Proof.
  destruct (C6_subject_commit Demo.widgets (Demo.at_ 0) Demo.enter
              Demo.onSubject Demo.onSubjectLegacy)
    as [(_ & (Hs & Hv) & Hu) (_ & (Hs' & Hv') & Hu')].
  destruct Hu as (_ & _ & Hus & Huv); [vm_compute; reflexivity | reflexivity |].
  rewrite Hus, Huv, Hs, Hv.
  rewrite (Hu' ltac:(vm_compute; reflexivity) eq_refl), Hs', Hv'.
  repeat split; vm_compute; reflexivity.
Defined.

(** ** The claims on the paths, the cursor and the confirmation *)

(** C7.  All along every run from the initial model, [htmlFilePath] is set
    only if [csvFilePath] is.  The reason, for any model at all: a message
    leaves [htmlFilePath] as it is while [csvFilePath] is empty, and leaves
    [csvFilePath] as it is once it is set.  Both variants. *)
Theorem C7_html_after_csv :
  forall (W : Widgets),
    ((forall home evs,
        Forall (fun m => pathsOrdered (Main.csvFilePath m) (Main.htmlFilePath m) = true)
          (Main.trace evs (Main.initialModel home))) /\
     (forall clk msg (m : Main.model),
        (if isSet (Main.csvFilePath m)
         then Main.csvFilePath (fst (Main.Update clk msg m)) = Main.csvFilePath m
         else Main.htmlFilePath (fst (Main.Update clk msg m)) = Main.htmlFilePath m))) /\
    ((forall home evs,
        Forall (fun l => pathsOrdered (Legacy.csvFilePath l) (Legacy.htmlFilePath l) = true)
          (Legacy.trace evs (Legacy.initialModel home))) /\
     (forall clk msg (l : Legacy.model),
        (if isSet (Legacy.csvFilePath l)
         then Legacy.csvFilePath (fst (Legacy.Update clk msg l)) = Legacy.csvFilePath l
         else Legacy.htmlFilePath (fst (Legacy.Update clk msg l)) = Legacy.htmlFilePath l))).
Proof.
  intros W. split; split.
  - intros home evs. apply Main_trace_Forall; [|reflexivity].
    intros clk msg m. apply Main_Update_pathsOrdered.
  - intros clk msg m. destruct (isSet (Main.csvFilePath m)) eqn:E.
    + apply Main_Update_csv_kept, E.
    + apply Main_Update_html_kept, E.
  - intros home evs. apply Legacy_trace_Forall; [|reflexivity].
    intros clk msg l. apply Legacy_Update_pathsOrdered.
  - intros clk msg l. destruct (isSet (Legacy.csvFilePath l)) eqn:E.
    + apply Legacy_Update_csv_kept, E.
    + apply Legacy_Update_html_kept, E.
Qed.

(** In the scenario the CSV path is chosen first and is still there when
    the HTML path has been chosen. *)
Example C7_scenario :
  map (fun m => (Main.csvFilePath m, Main.htmlFilePath m))
    (Main.trace (firstn 4 Demo.fillIn) Demo.start)
  = [("", ""); ("", ""); ("/home/u/data.csv", ""); ("/home/u/data.csv", "");
     ("/home/u/data.csv", "/home/u/tpl.html")].
Proof. vm_compute. reflexivity. Qed.

Lemma isDownKey_cases (k : Key) :
  isDownKey k = true -> key_String k = "down" \/ key_String k = "j".
Proof.
  unfold isDownKey. intros H. apply orb_true_iff in H.
  destruct H as [H|H]; apply String.eqb_eq in H; auto.
Qed.

Lemma isUpKey_cases (k : Key) :
  isUpKey k = true -> key_String k = "up" \/ key_String k = "k".
Proof.
  unfold isUpKey. intros H. apply orb_true_iff in H.
  destruct H as [H|H]; apply String.eqb_eq in H; auto.
Qed.

Lemma Main_confirmation_key {W : Widgets} clk k (m : Main.model) :
  Main.currentView m = Main.confirmationView ->
  isQuitKey k = false ->
  Main.Update clk (KeyMsg k) m
  = Main.updateConfirmation (KeyMsg k)
      (Main.set_list (fst (list_Update (KeyMsg k) (Main.list_ m))) m).
Proof.
  intros Hv Hq. unfold isQuitKey in Hq.
  unfold Main.Update, Main.updateByType, Main.updateKey. rewrite Hv, Hq.
  destruct (list_Update (KeyMsg k) (Main.list_ m)) as [lst c0]. cbn.
  rewrite Hv. reflexivity.
Qed.

Lemma Legacy_confirmation_key {W : Widgets} clk k (l : Legacy.model) :
  Legacy.currentView l = Legacy.confirmationView ->
  isQuitKey k = false ->
  Legacy.Update clk (KeyMsg k) l = Legacy.updateConfirmation (KeyMsg k) l.
Proof.
  intros Hv Hq. unfold isQuitKey in Hq.
  unfold Legacy.Update. rewrite Hv, Hq. reflexivity.
Qed.

(** C8.  On the Confirmation screen of either variant [down] (or [j]) with
    the cursor on 1 puts it on 0, and [up] (or [k]) with the cursor on 0 puts
    it on 1; no message at all takes a cursor that is on 0 or 1 anywhere
    else, so all along every run from the initial model, whatever is
    pressed, the cursor is on 0 or on 1. *)
Theorem C8_cursor_wraps :
  forall (W : Widgets),
    ((forall clk k (m : Main.model),
        Main.currentView m = Main.confirmationView ->
        (isDownKey k = true -> Main.cursor m = 1 ->
           Main.cursor (fst (Main.Update clk (KeyMsg k) m)) = 0) /\
        (isUpKey k = true -> Main.cursor m = 0 ->
           Main.cursor (fst (Main.Update clk (KeyMsg k) m)) = 1)) /\
     (forall clk msg (m : Main.model),
        cursorOk (Main.cursor m) = true ->
        cursorOk (Main.cursor (fst (Main.Update clk msg m))) = true) /\
     (forall home evs,
        Forall (fun m => cursorOk (Main.cursor m) = true)
          (Main.trace evs (Main.initialModel home)))) /\
    ((forall clk k (l : Legacy.model),
        Legacy.currentView l = Legacy.confirmationView ->
        (isDownKey k = true -> Legacy.cursor l = 1 ->
           Legacy.cursor (fst (Legacy.Update clk (KeyMsg k) l)) = 0) /\
        (isUpKey k = true -> Legacy.cursor l = 0 ->
           Legacy.cursor (fst (Legacy.Update clk (KeyMsg k) l)) = 1)) /\
     (forall clk msg (l : Legacy.model),
        cursorOk (Legacy.cursor l) = true ->
        cursorOk (Legacy.cursor (fst (Legacy.Update clk msg l))) = true) /\
     (forall home evs,
        Forall (fun l => cursorOk (Legacy.cursor l) = true)
          (Legacy.trace evs (Legacy.initialModel home)))).
Proof.
  intros W. split; (split; [|split]).
  - intros clk k m Hv. split; intros Hk Hc.
    + rewrite Main_confirmation_key; [|exact Hv|].
      * unfold Main.updateConfirmation.
        destruct (isDownKey_cases k Hk) as [E|E]; rewrite E; cbn; rewrite Hc; reflexivity.
      * unfold isQuitKey. destruct (isDownKey_cases k Hk) as [E|E]; rewrite E; reflexivity.
    + rewrite Main_confirmation_key; [|exact Hv|].
      * unfold Main.updateConfirmation.
        destruct (isUpKey_cases k Hk) as [E|E]; rewrite E; cbn; rewrite Hc; reflexivity.
      * unfold isQuitKey. destruct (isUpKey_cases k Hk) as [E|E]; rewrite E; reflexivity.
  - intros clk msg m. apply Main_Update_cursor.
  - intros home evs. apply Main_trace_Forall; [|reflexivity].
    intros clk msg m. apply Main_Update_cursor.
  - intros clk k l Hv. split; intros Hk Hc.
    + rewrite Legacy_confirmation_key; [|exact Hv|].
      * unfold Legacy.updateConfirmation.
        destruct (isDownKey_cases k Hk) as [E|E]; rewrite E; cbn; rewrite Hc; reflexivity.
      * unfold isQuitKey. destruct (isDownKey_cases k Hk) as [E|E]; rewrite E; reflexivity.
    + rewrite Legacy_confirmation_key; [|exact Hv|].
      * unfold Legacy.updateConfirmation.
        destruct (isUpKey_cases k Hk) as [E|E]; rewrite E; cbn; rewrite Hc; reflexivity.
      * unfold isQuitKey. destruct (isUpKey_cases k Hk) as [E|E]; rewrite E; reflexivity.
  - intros clk msg l. apply Legacy_Update_cursor.
  - intros home evs. apply Legacy_trace_Forall; [|reflexivity].
    intros clk msg l. apply Legacy_Update_cursor.
Qed.

(** [up] on Yes gives No, and [down] on No gives Yes again. *)
Lemma C8_cursor_wraps_witness :
  Main.cursor (fst (Main.Update (Demo.at_ 0) Demo.up Demo.onConfirmation)) = 1 /\
  Main.cursor
    (fst (Main.Update (Demo.at_ 0) Demo.down (Main.set_cursor 1 Demo.onConfirmation))) = 0 /\
  Legacy.cursor (fst (Legacy.Update (Demo.at_ 0) Demo.up Demo.onConfirmationLegacy)) = 1 /\
  Legacy.cursor
    (fst (Legacy.Update (Demo.at_ 0) Demo.down
            (Legacy.set_cursor 1 Demo.onConfirmationLegacy))) = 0.
Proof.
  destruct (C8_cursor_wraps Demo.widgets) as [(Hm & _ & _) (Hl & _ & _)].
  assert (Hv : Main.currentView Demo.onConfirmation = Main.confirmationView)
    by (vm_compute; reflexivity).
  assert (Hv' : Legacy.currentView Demo.onConfirmationLegacy = Legacy.confirmationView)
    by (vm_compute; reflexivity).
  split; [|split; [|split]].
  - apply (Hm (Demo.at_ 0) {| key_Type := KeyUp; key_String := "up" |} _ Hv);
      vm_compute; reflexivity.
  - apply (Hm (Demo.at_ 0) {| key_Type := KeyDown; key_String := "down" |}
             (Main.set_cursor 1 Demo.onConfirmation) Hv); reflexivity.
  - apply (Hl (Demo.at_ 0) {| key_Type := KeyUp; key_String := "up" |} _ Hv');
      vm_compute; reflexivity.
  - apply (Hl (Demo.at_ 0) {| key_Type := KeyDown; key_String := "down" |}
             (Legacy.set_cursor 1 Demo.onConfirmationLegacy) Hv'); reflexivity.
Defined.

(** C9.  On the Confirmation screen of either variant a key that is none of
    [up], [k], [down], [j], [enter] and no quit key leaves the cursor and the
    screen as they are; nothing of the model changes but, in main.go, the
    Home menu, which is given every message; no command is returned. *)
Theorem C9_confirmation_other_key :
  forall (W : Widgets) (clk : Clock) (k : Key) (m : Main.model) (l : Legacy.model),
    Main.currentView m = Main.confirmationView ->
    Legacy.currentView l = Legacy.confirmationView ->
    isUpKey k = false -> isDownKey k = false -> isEnterKey k = false ->
    isQuitKey k = false ->
    (Main.cursor (fst (Main.Update clk (KeyMsg k) m)) = Main.cursor m /\
     Main.currentView (fst (Main.Update clk (KeyMsg k) m)) = Main.currentView m /\
     Main.Update clk (KeyMsg k) m
       = (Main.set_list (fst (list_Update (KeyMsg k) (Main.list_ m))) m, CmdNil)) /\
    (Legacy.cursor (fst (Legacy.Update clk (KeyMsg k) l)) = Legacy.cursor l /\
     Legacy.currentView (fst (Legacy.Update clk (KeyMsg k) l)) = Legacy.currentView l /\
     Legacy.Update clk (KeyMsg k) l = (l, CmdNil)).
Proof.
  intros W clk k m l Hm Hl Hu Hd He Hq.
  unfold isUpKey, isDownKey, isEnterKey in *.
  rewrite (Main_confirmation_key clk k m Hm Hq).
  rewrite (Legacy_confirmation_key clk k l Hl Hq).
  unfold Main.updateConfirmation, Legacy.updateConfirmation. cbn.
  rewrite Hu, Hd, He. cbn. repeat split.
Qed.

Lemma C9_confirmation_other_key_witness :
  Main.cursor (fst (Main.Update (Demo.at_ 0) (Demo.rune "x") Demo.onConfirmation))
    = Main.cursor Demo.onConfirmation /\
  Main.currentView (fst (Main.Update (Demo.at_ 0) (Demo.rune "x") Demo.onConfirmation))
    = Main.confirmationView /\
  Legacy.Update (Demo.at_ 0) (Demo.rune "x") Demo.onConfirmationLegacy
    = (Demo.onConfirmationLegacy, CmdNil).
Proof.
  assert (Hv : Main.currentView Demo.onConfirmation = Main.confirmationView)
    by (vm_compute; reflexivity).
  assert (Hv' : Legacy.currentView Demo.onConfirmationLegacy = Legacy.confirmationView)
    by (vm_compute; reflexivity).
  destruct (C9_confirmation_other_key Demo.widgets (Demo.at_ 0)
              {| key_Type := KeyRunes; key_String := "x" |}
              Demo.onConfirmation Demo.onConfirmationLegacy
              Hv Hv' eq_refl eq_refl eq_refl eq_refl)
    as [(Hc & Hs & _) (_ & _ & Hl)].
  split; [exact Hc | split; [exact (eq_trans Hs Hv) | exact Hl]].
Defined.

(** ** Once confirmed, always confirmed *)

Section Confirmed.
Context {W : Widgets}.

(** From a confirmed model on the Progress screen on, every model of the run
    is confirmed, on the Progress screen, and has the same paths and
    subject. *)
Lemma Main_trace_confirmed (m : Main.model) evs :
  Main.currentView m = Main.progressView ->
  Main.confirmed m = true ->
  Forall (fun m' => Main.confirmed m' = true /\
                    Main.currentView m' = Main.progressView /\
                    Main.csvFilePath m' = Main.csvFilePath m /\
                    Main.htmlFilePath m' = Main.htmlFilePath m /\
                    Main.subject m' = Main.subject m)
    (Main.trace evs m).
Proof.
  intros Hv Hc. apply Main_trace_Forall; [|repeat split; assumption].
  intros clk msg m' (Hc' & Hv' & H1 & H2 & H3).
  destruct (Main_Update_on_progress clk msg m' Hv') as (E1 & E2 & E3 & E4 & E5).
  rewrite E1, E2, E3, E4, E5. repeat split; assumption.
Qed.

Lemma Legacy_trace_confirmed (l : Legacy.model) evs :
  Legacy.currentView l = Legacy.progressView ->
  Legacy.confirmed l = true ->
  Forall (fun l' => Legacy.confirmed l' = true /\
                    Legacy.currentView l' = Legacy.progressView /\
                    Legacy.csvFilePath l' = Legacy.csvFilePath l /\
                    Legacy.htmlFilePath l' = Legacy.htmlFilePath l /\
                    Legacy.subject l' = Legacy.subject l)
    (Legacy.trace evs l).
Proof.
  intros Hv Hc. apply Legacy_trace_Forall; [|repeat split; assumption].
  intros clk msg m' (Hc' & Hv' & H1 & H2 & H3).
  destruct (Legacy_Update_on_progress clk msg m' Hv') as (E1 & E2 & E3 & E4 & E5).
  rewrite E1, E2, E3, E4, E5. repeat split; assumption.
Qed.

Lemma Main_reachable_confirmed home evs (m : Main.model) :
  In m (Main.trace evs (Main.initialModel home)) ->
  Main.confirmed m = true ->
  Main.currentView m = Main.progressView.
Proof.
  intros Hin Hc.
  assert (H : Forall (fun m => implb (Main.confirmed m) (Main_onProgress m) = true)
                (Main.trace evs (Main.initialModel home))).
  { apply Main_trace_Forall; [|reflexivity].
    intros clk msg m0. apply Main_Update_confirmed_on_progress. }
  rewrite Forall_forall in H. specialize (H m Hin). rewrite Hc in H.
  unfold Main_onProgress in H. destruct (Main.currentView m); try discriminate.
  reflexivity.
Qed.

Lemma Legacy_reachable_confirmed home evs (l : Legacy.model) :
  In l (Legacy.trace evs (Legacy.initialModel home)) ->
  Legacy.confirmed l = true ->
  Legacy.currentView l = Legacy.progressView.
Proof.
  intros Hin Hc.
  assert (H : Forall (fun m => implb (Legacy.confirmed m) (Legacy_onProgress m) = true)
                (Legacy.trace evs (Legacy.initialModel home))).
  { apply Legacy_trace_Forall; [|reflexivity].
    intros clk msg m0. apply Legacy_Update_confirmed_on_progress. }
  rewrite Forall_forall in H. specialize (H l Hin). rewrite Hc in H.
  unfold Legacy_onProgress in H. destruct (Legacy.currentView l); try discriminate.
  reflexivity.
Qed.

End Confirmed.

(** C10.  In either variant, a model of a run from the initial model that is
    confirmed is on the Progress screen, and from it on every model of the
    run is confirmed, whatever messages follow; when the loop ends, [main]
    prints the line [Emails sent using CSV file: ...] with the paths and the
    subject of the confirmation.  In particular a quit key on the Progress
    screen ends the run with that line: at once in the earlier variant, and
    in main.go when the exit message that the key schedules arrives. *)
Theorem C10_confirmed_sticks :
  forall (W : Widgets),
    ((forall home evs (m : Main.model) evs',
        In m (Main.trace evs (Main.initialModel home)) ->
        Main.confirmed m = true ->
        Main.currentView m = Main.progressView /\
        Forall (fun m' => Main.confirmed m' = true) (Main.trace evs' m) /\
        (forall final, Main.Run evs' m = Some final ->
           fst (Main.main (final, None))
           = sentLine (Main.csvFilePath m) (Main.htmlFilePath m) (Main.subject m))) /\
     (forall clk clk' k (m : Main.model),
        isQuitKey k = true ->
        Main.currentView m = Main.progressView ->
        Main.confirmed m = true ->
        exists final,
          Main.Run [(clk, KeyMsg k); (clk', ExitMsg (wrap64 (Main.tag m + 1)))] m
            = Some final /\
          Main.quitting final = true /\
          fst (Main.main (final, None))
          = sentLine (Main.csvFilePath m) (Main.htmlFilePath m) (Main.subject m))) /\
    ((forall home evs (l : Legacy.model) evs',
        In l (Legacy.trace evs (Legacy.initialModel home)) ->
        Legacy.confirmed l = true ->
        Legacy.currentView l = Legacy.progressView /\
        Forall (fun l' => Legacy.confirmed l' = true) (Legacy.trace evs' l) /\
        (forall final, Legacy.Run evs' l = Some final ->
           fst (Legacy.main (final, None))
           = sentLine (Legacy.csvFilePath l) (Legacy.htmlFilePath l) (Legacy.subject l))) /\
     (forall clk k (l : Legacy.model) rest,
        isQuitKey k = true ->
        Legacy.currentView l = Legacy.progressView ->
        Legacy.confirmed l = true ->
        exists final,
          Legacy.Run ((clk, KeyMsg k) :: rest) l = Some final /\
          Legacy.quitting final = true /\
          fst (Legacy.main (final, None))
          = sentLine (Legacy.csvFilePath l) (Legacy.htmlFilePath l) (Legacy.subject l))).
Proof.
  intros W. split; split.
  - intros home evs m evs' Hin Hc.
    pose proof (Main_reachable_confirmed home evs m Hin Hc) as Hv.
    pose proof (Main_trace_confirmed m evs' Hv Hc) as HF.
    split; [exact Hv | split].
    + eapply Forall_impl; [|exact HF]. intros a Ha. apply Ha.
    + intros final Hrun. apply Main_Run_in_trace in Hrun.
      rewrite Forall_forall in HF. destruct (HF final Hrun) as (E1 & _ & E3 & E4 & E5).
      unfold Main.main. rewrite E1, E3, E4, E5. reflexivity.
  - intros clk clk' k m Hk Hv Hc.
    destruct (isQuitKey_cases k Hk) as [E|E];
      (eexists; split; [|split];
       [ unfold Main.Run; unfold_main; rewrite E, Hv; cbn; rewrite Hv; cbn;
         rewrite Z.eqb_refl; cbn; reflexivity
       | reflexivity
       | unfold Main.main; cbn; rewrite Hc; reflexivity ]).
  - intros home evs l evs' Hin Hc.
    pose proof (Legacy_reachable_confirmed home evs l Hin Hc) as Hv.
    pose proof (Legacy_trace_confirmed l evs' Hv Hc) as HF.
    split; [exact Hv | split].
    + eapply Forall_impl; [|exact HF]. intros a Ha. apply Ha.
    + intros final Hrun. apply Legacy_Run_in_trace in Hrun.
      rewrite Forall_forall in HF. destruct (HF final Hrun) as (E1 & _ & E3 & E4 & E5).
      unfold Legacy.main. rewrite E1, E3, E4, E5. reflexivity.
  - intros clk k l rest Hk Hv Hc. unfold isQuitKey in Hk.
    eexists; split; [|split].
    + unfold Legacy.Run, Legacy.Update. rewrite Hk. cbn. reflexivity.
    + reflexivity.
    + unfold Legacy.main. cbn. rewrite Hc. reflexivity.
Qed.

(** A [q] on the Progress screen of the scenario: the run ends with the
    line of the confirmed run in both variants. *)
Lemma C10_confirmed_sticks_witness :
  (exists final,
     Main.Run [(Demo.at_ 0, Demo.rune "q"); (Demo.at_ (5 * Second), ExitMsg 1)]
       Demo.onProgress = Some final /\
     fst (Main.main (final, None))
     = ("Emails sent using CSV file: /home/u/data.csv, HTML template: /home/u/tpl.html, and subject: Welcome"
          ++ newline)%string) /\
  (exists final,
     Legacy.Run [(Demo.at_ 0, Demo.rune "q")] Demo.onProgressLegacy = Some final /\
     fst (Legacy.main (final, None))
     = ("Emails sent using CSV file: /home/u/data.csv, HTML template: /home/u/tpl.html, and subject: Welcome"
          ++ newline)%string).
Proof.
  destruct (C10_confirmed_sticks Demo.widgets) as [[_ Hm] [_ Hl]].
  split.
  - destruct (Hm (Demo.at_ 0) (Demo.at_ (5 * Second))
                {| key_Type := KeyRunes; key_String := "q" |} Demo.onProgress
                eq_refl ltac:(vm_compute; reflexivity) ltac:(vm_compute; reflexivity))
      as (final & Hrun & _ & Hline).
    exists final. split; [exact Hrun | exact Hline].
  - destruct (Hl (Demo.at_ 0) {| key_Type := KeyRunes; key_String := "q" |}
                Demo.onProgressLegacy [] eq_refl
                ltac:(vm_compute; reflexivity) ltac:(vm_compute; reflexivity))
      as (final & Hrun & _ & Hline).
    exists final. split; [exact Hrun | exact Hline].
Defined.

(** * Further properties of the controller *)

(** ** Machine integers *)

Lemma wrap64_range (z : Z) : inInt64 (wrap64 z) = true.
Proof.
  unfold inInt64, wrap64.
  pose proof (Z.mod_pos_bound (z + 2 ^ 63) (2 ^ 64) eq_refl) as H.
  apply andb_true_iff. split; [apply Z.leb_le | apply Z.ltb_lt]; lia.
Qed.

Lemma wrap64_succ_neq (z : Z) : inInt64 z = true -> wrap64 (z + 1) <> z.
Proof.
  unfold inInt64, wrap64. intros H. apply andb_true_iff in H.
  destruct H as [H1 H2]. apply Z.leb_le in H1. apply Z.ltb_lt in H2.
  intros E.
  destruct (Z.eq_dec z (2 ^ 63 - 1)) as [->|Hn].
  - vm_compute in E. discriminate.
  - rewrite Z.mod_small in E by lia. lia.
Qed.

Section Further.
Context {W : Widgets}.

(** The last model of a run is one of its models. *)
Lemma Main_trace_last evs : forall m d, In (last (Main.trace evs m) d) (Main.trace evs m).
Proof.
  induction evs as [|[clk msg] evs IH]; intros m d; simpl.
  - left. reflexivity.
  - destruct (Main.Update clk msg m) as [m' cmd]. destruct (requestsQuit cmd).
    + right. left. reflexivity.
    + specialize (IH m' d). destruct (Main.trace evs m') eqn:E; [destruct IH|].
      right. exact IH.
Qed.

Lemma Legacy_trace_last evs :
  forall l d, In (last (Legacy.trace evs l) d) (Legacy.trace evs l).
Proof.
  induction evs as [|[clk msg] evs IH]; intros m d; simpl.
  - left. reflexivity.
  - destruct (Legacy.Update clk msg m) as [m' cmd]. destruct (requestsQuit cmd).
    + right. left. reflexivity.
    + specialize (IH m' d). destruct (Legacy.trace evs m') eqn:E; [destruct IH|].
      right. exact IH.
Qed.

Lemma Main_Update_tag_range clk msg m :
  inInt64 (Main.tag m) = true -> inInt64 (Main.tag (fst (Main.Update clk msg m))) = true.
Proof.
  intros H. unfold_main.
  destruct msg; destruct (Main.currentView m) eqn:E; cbn;
    repeat (break_inner; cbn in *; rewrite ?E in *; cbn in * ); try discriminate;
    auto using wrap64_range.
Qed.

Lemma Main_tag_range home evs m :
  In m (Main.trace evs (Main.initialModel home)) -> inInt64 (Main.tag m) = true.
Proof.
  intros Hin.
  assert (H : Forall (fun m => inInt64 (Main.tag m) = true)
                (Main.trace evs (Main.initialModel home))).
  { apply Main_trace_Forall; [|reflexivity]. intros. now apply Main_Update_tag_range. }
  rewrite Forall_forall in H. exact (H m Hin).
Qed.

End Further.

(** X1.  The quit of the Progress screen of main.go is debounced.  For a
    model of a run that is on the Progress screen, a key press makes the
    exit message scheduled before it stale: delivered afterwards, the
    message carrying the old tag requests no end of the loop and leaves
    [quitting] as it was, while the message carrying the tag of the latest
    key press sets [quitting] and ends the loop. *)
Theorem X1_debounced_exit :
  forall (W : Widgets) home evs (m : Main.model) clk clk' k,
    In m (Main.trace evs (Main.initialModel home)) ->
    Main.currentView m = Main.progressView ->
    let m1 := fst (Main.Update clk (KeyMsg k) m) in
    let stale := Main.Update clk' (ExitMsg (Main.tag m)) m1 in
    requestsQuit (snd stale) = false /\
    Main.quitting (fst stale) = Main.quitting m /\
    Main.tag (fst stale) = Main.tag m1 /\
    Main.Update clk' (ExitMsg (Main.tag m1)) m1 = (Main.set_quitting true m1, Quit).
Proof.
  intros W home evs m clk clk' k Hin Hv. cbv zeta.
  pose proof (wrap64_succ_neq _ (Main_tag_range home evs m Hin)) as Hneq.
  assert (E1 : Main.Update clk (KeyMsg k) m
               = (Main.set_tag (wrap64 (Main.tag m + 1)) m,
                  Tick Main.debounceDuration (ReplyExit (wrap64 (Main.tag m + 1))))).
  { unfold_main. rewrite Hv. reflexivity. }
  rewrite E1. cbn [fst].
  unfold_main. cbn. rewrite Hv. rewrite Z.eqb_refl.
  destruct (Z.eqb_spec (Main.tag m) (wrap64 (Main.tag m + 1))) as [E|_];
    [exfalso; apply Hneq; symmetry; exact E|].
  destruct (list_Update _ _) as [lst c]. cbn. rewrite Hv. cbn.
  repeat split.
Qed.

Lemma X1_debounced_exit_witness :
  requestsQuit
    (snd (Main.Update (Demo.at_ 0) (ExitMsg 0)
            (fst (Main.Update (Demo.at_ 0) (Demo.rune "x") Demo.onProgress)))) = false /\
  Main.Update (Demo.at_ 0) (ExitMsg 1)
    (fst (Main.Update (Demo.at_ 0) (Demo.rune "x") Demo.onProgress))
  = (Main.set_quitting true (Main.set_tag 1 Demo.onProgress), Quit).
Proof.
  destruct (X1_debounced_exit Demo.widgets Demo.home
              (Demo.fillIn ++ [(Demo.at_ 0, Demo.enter)])%list Demo.onProgress
              (Demo.at_ 0) (Demo.at_ 0) {| key_Type := KeyRunes; key_String := "x" |}
              (Main_trace_last _ _ _) ltac:(vm_compute; reflexivity))
    as (H1 & _ & _ & H2).
  split; [exact H1 | exact H2].
Defined.

(** ** What a message may change *)

Section Frames.
Context {W : Widgets}.

Lemma Main_Update_quitting clk msg m :
  Main.quitting m = false ->
  Main.quitting (fst (Main.Update clk msg m)) = true ->
  snd (Main.Update clk msg m) = Quit.
Proof.
  intros H. unfold_main.
  destruct msg; destruct (Main.currentView m) eqn:E; cbn;
    repeat (break_inner; cbn in *; rewrite ?E in *; cbn in * ); try discriminate;
    intros; congruence.
Qed.

Lemma Legacy_Update_quitting clk msg l :
  Legacy.quitting l = false ->
  Legacy.quitting (fst (Legacy.Update clk msg l)) = true ->
  snd (Legacy.Update clk msg l) = Quit.
Proof.
  intros H. unfold_legacy.
  destruct msg; destruct (Legacy.currentView l) eqn:E; cbn;
    repeat (break_inner; cbn in *; rewrite ?E in *; cbn in * ); try discriminate;
    intros; congruence.
Qed.

Lemma Main_trace_quitting evs :
  forall m, Main.quitting m = false ->
  Forall (fun m' => Main.quitting m' = false) (removelast (Main.trace evs m)).
Proof.
  induction evs as [|[clk msg] evs IH]; intros m Hm; simpl; [constructor|].
  pose proof (Main_Update_quitting clk msg m Hm) as Hq.
  destruct (Main.Update clk msg m) as [m' cmd]; simpl in Hq.
  destruct (requestsQuit cmd) eqn:Er.
  - constructor; [exact Hm | constructor].
  - assert (Hm' : Main.quitting m' = false).
    { destruct (Main.quitting m'); [|reflexivity].
      rewrite (Hq eq_refl) in Er. discriminate. }
    specialize (IH m' Hm').
    destruct (Main.trace evs m') eqn:Et; [constructor|].
    change (removelast (m :: m0 :: l)) with (m :: removelast (m0 :: l)).
    constructor; [exact Hm | exact IH].
Qed.

Lemma Legacy_trace_quitting evs :
  forall l, Legacy.quitting l = false ->
  Forall (fun l' => Legacy.quitting l' = false) (removelast (Legacy.trace evs l)).
Proof.
  induction evs as [|[clk msg] evs IH]; intros m Hm; simpl; [constructor|].
  pose proof (Legacy_Update_quitting clk msg m Hm) as Hq.
  destruct (Legacy.Update clk msg m) as [m' cmd]; simpl in Hq.
  destruct (requestsQuit cmd) eqn:Er.
  - constructor; [exact Hm | constructor].
  - assert (Hm' : Legacy.quitting m' = false).
    { destruct (Legacy.quitting m'); [|reflexivity].
      rewrite (Hq eq_refl) in Er. discriminate. }
    specialize (IH m' Hm').
    destruct (Legacy.trace evs m') eqn:Et; [constructor|].
    change (removelast (m :: m0 :: l)) with (m :: removelast (m0 :: l)).
    constructor; [exact Hm | exact IH].
Qed.

End Frames.

(** X2.  In either variant [quitting] is set only by a message whose
    command is [tea.Quit]: all along a run from the initial model every
    model but the last has [quitting] false, so the frame that [View] renders
    from a quitting model can only be the last one. *)
Theorem X2_quitting_only_at_the_end :
  forall (W : Widgets) home evs,
    Forall (fun m => Main.quitting m = false)
      (removelast (Main.trace evs (Main.initialModel home))) /\
    Forall (fun l => Legacy.quitting l = false)
      (removelast (Legacy.trace evs (Legacy.initialModel home))).
Proof.
  intros W home evs. split.
  - apply Main_trace_quitting. reflexivity.
  - apply Legacy_trace_quitting. reflexivity.
Qed.

(** X3.  Every field of the model belongs to one screen: in either variant
    a message changes the two paths and the two file selectors only on the
    file selection, the subject and the text field only on the subject
    input, the cursor and [confirmed] only on the confirmation, the start
    time, the tag and the progress indicator only on the Progress screen. *)
Theorem X3_fields_belong_to_screens :
  forall (W : Widgets) clk msg (m : Main.model) (l : Legacy.model),
    (let m' := fst (Main.Update clk msg m) in
     (Main.currentView m <> Main.fileSelectionView ->
        Main.csvFilePath m' = Main.csvFilePath m /\
        Main.htmlFilePath m' = Main.htmlFilePath m /\
        Main.csvFilepicker m' = Main.csvFilepicker m /\
        Main.htmlFilepicker m' = Main.htmlFilepicker m) /\
     (Main.currentView m <> Main.subjectInputView ->
        Main.subject m' = Main.subject m /\ Main.textInput m' = Main.textInput m) /\
     (Main.currentView m <> Main.confirmationView ->
        Main.cursor m' = Main.cursor m /\ Main.confirmed m' = Main.confirmed m) /\
     (Main.currentView m <> Main.progressView ->
        Main.startTime m' = Main.startTime m /\ Main.tag m' = Main.tag m /\
        Main.progress m' = Main.progress m)) /\
    (let l' := fst (Legacy.Update clk msg l) in
     (Legacy.currentView l <> Legacy.fileSelectionView ->
        Legacy.csvFilePath l' = Legacy.csvFilePath l /\
        Legacy.htmlFilePath l' = Legacy.htmlFilePath l /\
        Legacy.csvFilepicker l' = Legacy.csvFilepicker l /\
        Legacy.htmlFilepicker l' = Legacy.htmlFilepicker l) /\
     (Legacy.currentView l <> Legacy.subjectInputView ->
        Legacy.subject l' = Legacy.subject l /\ Legacy.textInput l' = Legacy.textInput l) /\
     (Legacy.currentView l <> Legacy.confirmationView ->
        Legacy.cursor l' = Legacy.cursor l /\ Legacy.confirmed l' = Legacy.confirmed l) /\
     (Legacy.currentView l <> Legacy.progressView ->
        Legacy.startTime l' = Legacy.startTime l /\
        Legacy.progress l' = Legacy.progress l)).
Proof.
  intros W clk msg m l. cbv zeta. split.
  - unfold_main.
    destruct msg; destruct (Main.currentView m) eqn:E; cbn;
      repeat (break_inner; cbn in *; rewrite ?E in *; cbn in * ); try discriminate;
      repeat split; intros; try congruence; reflexivity.
  - unfold_legacy.
    destruct msg; destruct (Legacy.currentView l) eqn:E; cbn;
      repeat (break_inner; cbn in *; rewrite ?E in *; cbn in * ); try discriminate;
      repeat split; intros; try congruence; reflexivity.
Qed.

(** On the confirmation of the scenario a tick changes none of the data
    that the screen shows. *)
Lemma X3_fields_belong_to_screens_witness :
  Main.csvFilePath (fst (Main.Update (Demo.at_ 0) (TickMsg 0) Demo.onConfirmation))
    = "/home/u/data.csv" /\
  Main.subject (fst (Main.Update (Demo.at_ 0) (TickMsg 0) Demo.onConfirmation))
    = "Welcome" /\
  Legacy.startTime (fst (Legacy.Update (Demo.at_ 0) (TickMsg 0) Demo.onConfirmationLegacy))
    = 0.
Proof.
  destruct (X3_fields_belong_to_screens Demo.widgets (Demo.at_ 0) (TickMsg 0)
              Demo.onConfirmation Demo.onConfirmationLegacy)
    as [(Hf & Hs & _ & _) (_ & _ & _ & Hp)].
  destruct Hf as (Hcsv & _); [vm_compute; discriminate|].
  destruct Hs as (Hsub & _); [vm_compute; discriminate|].
  destruct Hp as (Hst & _); [vm_compute; discriminate|].
  rewrite Hcsv, Hsub, Hst. repeat split; vm_compute; reflexivity.
Defined.

Ltac split_andb :=
  repeat match goal with
    | H : _ && _ = true |- _ => apply andb_true_iff in H; destruct H
    | H : negb _ = true |- _ => apply negb_true_iff in H
    | H : (_ =? _)%Z = true |- _ => apply Z.eqb_eq in H
    end.

Section Fresh.
Context {W : Widgets}.

Lemma Main_Update_fresh clk msg m :
  Main_fresh m = true -> Main_fresh (fst (Main.Update clk msg m)) = true.
Proof.
  unfold Main_fresh. unfold_main. intros H.
  destruct msg; destruct (Main.currentView m) eqn:E; cbn in *; try discriminate;
    split_andb;
    repeat (break_inner; cbn in *; rewrite ?E in *; cbn in * ); try discriminate;
    repeat match goal with H : _ = _ |- _ => rewrite H end; cbn; auto.
Qed.

Lemma Legacy_Update_fresh clk msg l :
  Legacy_fresh l = true -> Legacy_fresh (fst (Legacy.Update clk msg l)) = true.
Proof.
  unfold Legacy_fresh. unfold_legacy. intros H.
  destruct msg; destruct (Legacy.currentView l) eqn:E; cbn in *; try discriminate;
    split_andb;
    repeat (break_inner; cbn in *; rewrite ?E in *; cbn in * ); try discriminate;
    repeat match goal with H : _ = _ |- _ => rewrite H end; cbn; auto.
Qed.

End Fresh.

(** X4.  All along a run from the initial model, a step of the wizard finds
    its data as [initialModel] left them: no path before the file selection
    and no HTML path until it is left, no subject until the subject input is
    left, the cursor on Yes and nothing confirmed until the confirmation, no
    start time and tag 0 until the Progress screen, which is reached
    confirmed only.  The countdown screen of main.go is never active. *)
Theorem X4_screens_start_fresh :
  forall (W : Widgets) home evs,
    Forall (fun m => Main_fresh m = true) (Main.trace evs (Main.initialModel home)) /\
    Forall (fun l => Legacy_fresh l = true) (Legacy.trace evs (Legacy.initialModel home)).
Proof.
  intros W home evs. split.
  - apply Main_trace_Forall; [|reflexivity]. intros clk msg m. apply Main_Update_fresh.
  - apply Legacy_trace_Forall; [|reflexivity]. intros clk msg l. apply Legacy_Update_fresh.
Qed.

(** ** The two variants side by side *)

(** X5.  From the subject input on, main.go behaves as the earlier variant:
    on the subject input and the confirmation for every message but a mouse
    message (which main.go drops), on the Progress screen for the ticks, the
    indicator's frames, the widgets' own messages and the stale exit
    messages.  Read as a model of the earlier variant, the model main.go
    computes is the one the earlier variant computes, and the commands are
    the same. *)
Theorem X5_variants_agree :
  forall (W : Widgets) clk msg (m : Main.model),
    variantsAgree m msg = true ->
    match toLegacy m with
    | Some l =>
        toLegacy (fst (Main.Update clk msg m)) = Some (fst (Legacy.Update clk msg l)) /\
        snd (Main.Update clk msg m) = snd (Legacy.Update clk msg l)
    | None => False
    end.
Proof.
  intros W clk msg m. unfold variantsAgree, toLegacy, toLegacyView.
  unfold_main. unfold_legacy.
  destruct msg as [w h| k | | n | t | i j | n];
    destruct (Main.currentView m) eqn:E; cbn; intros H; try discriminate H.
  all: try (apply negb_true_iff in H; rewrite H; cbn).
  all: repeat (break_inner; cbn in *; rewrite ?E in *; cbn in * ); try discriminate.
  all: try (split; reflexivity).
Qed.

(** A tick on the Progress screen of the scenario, in both variants. *)
Lemma X5_variants_agree_witness :
  option_map (fun l => fst (Legacy.Update (Demo.at_ Second) (TickMsg 0) l))
    (toLegacy Demo.ticking)
  = toLegacy (fst (Main.Update (Demo.at_ Second) (TickMsg 0) Demo.ticking)).
Proof.
  pose proof (X5_variants_agree Demo.widgets (Demo.at_ Second) (TickMsg 0) Demo.ticking
                ltac:(vm_compute; reflexivity)) as H.
  destruct (toLegacy Demo.ticking) as [l|]; [|destruct H].
  destruct H as [H _]. rewrite H. reflexivity.
Defined.

(** ** The Home menu *)

(** X6.  The Home screen of main.go is left through the menu only.  A
    message moves the wizard from Home to the file selection exactly when it
    is [enter] with the item titled [CSV and HTML Upload] selected, and then
    the command is the CSV selector's [Init] and nothing else of the model
    changes; otherwise the screen stays Home.  A message sets [quitting]
    there exactly when it is a quit key or [enter] with the item titled
    [Quit] selected. *)
Theorem X6_home_menu :
  forall (W : Widgets) clk msg (m : Main.model),
    Main.currentView m = Main.homeView ->
    Main.quitting m = false ->
    let r := Main.Update clk msg m in
    Main_onFileSelection (fst r) = choosesItem "CSV and HTML Upload" msg m /\
    (if choosesItem "CSV and HTML Upload" msg m
     then r = (Main.set_currentView Main.fileSelectionView m,
               filepicker_Init (Main.csvFilepicker m))
     else Main.currentView (fst r) = Main.homeView) /\
    Main.quitting (fst r) = isQuitMsg msg || choosesItem "Quit" msg m.
Proof.
  intros W clk msg m Hv Hq. cbv zeta.
  unfold Main_onFileSelection, choosesItem, isQuitMsg, isQuitKey, isEnterKey.
  unfold_main. rewrite Hv.
  destruct msg as [w h| k | | n | t | i j | n]; cbn.
  2: { destruct (key_String k =? "up")%string eqn:E1;
         [apply String.eqb_eq in E1; rewrite E1 in *; cbn|].
       2: destruct (key_String k =? "k")%string eqn:E2;
         [apply String.eqb_eq in E2; rewrite E2 in *; cbn|].
       3: destruct (key_String k =? "down")%string eqn:E3;
         [apply String.eqb_eq in E3; rewrite E3 in *; cbn|].
       4: destruct (key_String k =? "j")%string eqn:E4;
         [apply String.eqb_eq in E4; rewrite E4 in *; cbn|].
       5: destruct (key_String k =? "enter")%string eqn:E5;
         [apply String.eqb_eq in E5; rewrite E5 in *; cbn|].
       all: cbn;
         repeat (break_inner; cbn in *; rewrite ?Hv, ?Hq in *; cbn in * );
         try discriminate; repeat split; auto.
       all: try (apply String.eqb_eq in Heqb; rewrite Heqb; reflexivity). }
  all: repeat (break_inner; cbn in *; rewrite ?Hv, ?Hq in *; cbn in * );
    try discriminate; repeat split; auto.
Qed.

(** [enter] on the initial model of the scenario, where the first item is
    selected, and after [down], where the second is. *)
Lemma X6_home_menu_witness :
  Main.Update (Demo.at_ 0) Demo.enter Demo.start
    = (Main.set_currentView Main.fileSelectionView Demo.start, WidgetCmd 1) /\
  Main.quitting
    (fst (Main.Update (Demo.at_ 0) Demo.enter (Demo.after [(Demo.at_ 0, Demo.down)])))
    = true.
Proof.
  destruct (X6_home_menu Demo.widgets (Demo.at_ 0) Demo.enter Demo.start eq_refl eq_refl)
    as (_ & H & _).
  destruct (X6_home_menu Demo.widgets (Demo.at_ 0) Demo.enter
              (Demo.after [(Demo.at_ 0, Demo.down)])
              ltac:(vm_compute; reflexivity) ltac:(vm_compute; reflexivity))
    as (_ & _ & H').
  split; [exact H | exact H'].
Defined.

(** ** How a run ends *)

Section Endings.
Context {W : Widgets}.

(** In a model of a run, [confirmed] says that the Progress screen has been
    reached. *)
Lemma Main_fresh_confirmed (m : Main.model) :
  Main_fresh m = true -> Main.confirmed m = Main_onProgress m.
Proof.
  unfold Main_fresh, Main_onProgress.
  destruct (Main.currentView m); intros H; try discriminate; split_andb; auto.
Qed.

Lemma Legacy_fresh_confirmed (l : Legacy.model) :
  Legacy_fresh l = true -> Legacy.confirmed l = Legacy_onProgress l.
Proof.
  unfold Legacy_fresh, Legacy_onProgress.
  destruct (Legacy.currentView l); intros H; try discriminate; split_andb; auto.
Qed.

End Endings.

(** X7.  The line [main] prints tells whether the run got to the Progress
    screen.  For every run from the initial model that ends without an
    error, in either variant: if the final model is on the Progress screen
    the line is [Emails sent using CSV file: ...], and on any other screen it
    is [Operation cancelled.], whatever ended the run there. *)
Theorem X7_summary_by_final_screen :
  forall (W : Widgets) home evs,
    (forall final,
       Main.Run evs (Main.initialModel home) = Some final ->
       fst (Main.main (final, None))
       = if Main_onProgress final
         then sentLine (Main.csvFilePath final) (Main.htmlFilePath final)
                (Main.subject final)
         else cancelledLine) /\
    (forall final,
       Legacy.Run evs (Legacy.initialModel home) = Some final ->
       fst (Legacy.main (final, None))
       = if Legacy_onProgress final
         then sentLine (Legacy.csvFilePath final) (Legacy.htmlFilePath final)
                (Legacy.subject final)
         else cancelledLine).
Proof.
  intros W home evs. split; intros final Hrun.
  - apply Main_Run_in_trace in Hrun.
    assert (H : Forall (fun m => Main_fresh m = true)
                  (Main.trace evs (Main.initialModel home))).
    { apply Main_trace_Forall; [|reflexivity]. intros. now apply Main_Update_fresh. }
    rewrite Forall_forall in H. specialize (H final Hrun).
    unfold Main.main. rewrite (Main_fresh_confirmed final H).
    destruct (Main_onProgress final); reflexivity.
  - apply Legacy_Run_in_trace in Hrun.
    assert (H : Forall (fun m => Legacy_fresh m = true)
                  (Legacy.trace evs (Legacy.initialModel home))).
    { apply Legacy_trace_Forall; [|reflexivity]. intros. now apply Legacy_Update_fresh. }
    rewrite Forall_forall in H. specialize (H final Hrun).
    unfold Legacy.main. rewrite (Legacy_fresh_confirmed final H).
    destruct (Legacy_onProgress final); reflexivity.
Qed.

(** The third scenario of the spec: [q] on the Home screen. *)
Lemma X7_summary_by_final_screen_witness :
  fst (Main.main (Main.set_quitting true Demo.start, None)) = cancelledLine.
Proof.
  destruct (X7_summary_by_final_screen Demo.widgets Demo.home
              [(Demo.at_ 0, Demo.rune "q")]) as [H _].
  exact (H (Main.set_quitting true Demo.start) eq_refl).
Defined.

Section Ticks.
Context {W : Widgets}.

Lemma Main_tick clk t (m : Main.model) :
  Main.currentView m = Main.progressView ->
  let start := if IsZero (Main.startTime m) then time_Now clk else Main.startTime m in
  let elapsed := time_Since clk start in
  Main.startTime (fst (Main.Update clk (TickMsg t) m)) = start /\
  snd (Main.Update clk (TickMsg t) m)
  = if elapsed >=? 5 * Second then Quit
    else Batch [tickCmd; snd (progress_SetPercent (progressNum elapsed) (Main.progress m))].
Proof.
  intros Hv. cbv zeta. unfold_main. cbn -[Z.mul Z.geb].
  destruct (list_Update (TickMsg t) (Main.list_ m)) as [lst c0].
  cbn -[Z.mul Z.geb]. rewrite Hv.
  destruct (IsZero (Main.startTime m)); cbn -[Z.mul Z.geb];
    match goal with
    | |- context [time_Since clk ?s >=? 5 * Second] =>
        destruct (time_Since clk s >=? 5 * Second)
    end; cbn -[Z.mul Z.geb];
    try (destruct (progress_SetPercent _ (Main.progress m)) as [p c]);
    split; reflexivity.
Qed.

Lemma Legacy_tick clk t (l : Legacy.model) :
  Legacy.currentView l = Legacy.progressView ->
  let start := if IsZero (Legacy.startTime l) then time_Now clk else Legacy.startTime l in
  let elapsed := time_Since clk start in
  Legacy.startTime (fst (Legacy.Update clk (TickMsg t) l)) = start /\
  snd (Legacy.Update clk (TickMsg t) l)
  = if elapsed >=? 5 * Second then Quit
    else Batch [tickCmd;
                snd (progress_SetPercent (progressNum elapsed) (Legacy.progress l))].
Proof.
  intros Hv. cbv zeta. unfold_legacy. cbn -[Z.mul Z.geb]. rewrite Hv.
  destruct (IsZero (Legacy.startTime l)); cbn -[Z.mul Z.geb];
    match goal with
    | |- context [time_Since clk ?s >=? 5 * Second] =>
        destruct (time_Since clk s >=? 5 * Second)
    end; cbn -[Z.mul Z.geb];
    try (destruct (progress_SetPercent _ (Legacy.progress l)) as [p c]);
    split; reflexivity.
Qed.

End Ticks.

(** The commands of quiet widgets, as they come up in a goal. *)
Ltac quiet_facts Hq :=
  destruct Hq as (Hq_list & Hq_init & Hq_picker & Hq_text & Hq_percent & Hq_bar);
  repeat match goal with
    | E : list_Update ?msg ?x = (_, ?c) |- _ =>
        lazymatch goal with
        | _ : requestsQuit c = false |- _ => fail
        | _ => let F := fresh "F" in
               pose proof (Hq_list msg x) as F; rewrite E in F; cbn in F
        end
    | E : filepicker_Update ?msg ?x = (_, ?c) |- _ =>
        lazymatch goal with
        | _ : requestsQuit c = false |- _ => fail
        | _ => let F := fresh "F" in
               pose proof (Hq_picker msg x) as F; rewrite E in F; cbn in F
        end
    | E : textinput_Update ?msg ?x = (_, ?c) |- _ =>
        lazymatch goal with
        | _ : requestsQuit c = false |- _ => fail
        | _ => let F := fresh "F" in
               pose proof (Hq_text msg x) as F; rewrite E in F; cbn in F
        end
    | E : progress_SetPercent ?q ?x = (_, ?c) |- _ =>
        lazymatch goal with
        | _ : requestsQuit c = false |- _ => fail
        | _ => let F := fresh "F" in
               pose proof (Hq_percent q x) as F; rewrite E in F; cbn in F
        end
    | E : progress_Update ?msg ?x = (_, ?c) |- _ =>
        lazymatch goal with
        | _ : requestsQuit c = false |- _ => fail
        | _ => let F := fresh "F" in
               pose proof (Hq_bar msg x) as F; rewrite E in F; cbn in F
        end
    end.

(** X8.  With widgets none of whose commands asks for the end of the loop,
    a handler asks for it in three cases only.  In main.go (the countdown
    screen apart, which no run reaches): the message has set [quitting] (a
    quit key, the Quit item of the Home menu, the current exit message); or
    it is [enter] on the confirmation with the cursor off Yes; or it is a tick
    on the Progress screen five seconds or more after the recorded start.
    In the earlier variant: a quit key, and the same two. *)
Theorem X8_why_the_loop_ends :
  forall (W : Widgets),
    quietWidgets W ->
    (forall clk msg (m : Main.model),
       Main.currentView m <> Main.quitView ->
       requestsQuit (snd (Main.Update clk msg m)) = true ->
       MainEnding clk msg m) /\
    (forall clk msg (l : Legacy.model),
       requestsQuit (snd (Legacy.Update clk msg l)) = true ->
       LegacyEnding clk msg l).
Proof.
  intros W Hq. split.
  - intros clk msg m Hv Hr.
    destruct (Main.quitting (fst (Main.Update clk msg m))) eqn:Equit;
      [apply EndsQuitting; exact Equit|].
    destruct (Main.currentView m) eqn:E; try congruence.
    + exfalso. revert Hr Equit. unfold_main. rewrite E.
      destruct msg; cbn;
        repeat (break_inner; cbn in *; rewrite ?E in *; cbn in * ); try discriminate;
        intros; quiet_facts Hq; try congruence.
      all: try (rewrite Hq_init in *; discriminate).
    + exfalso. revert Hr Equit. unfold_main. rewrite E.
      destruct msg; cbn;
        repeat (break_inner; cbn in *; rewrite ?E in *; cbn in * ); try discriminate;
        intros; quiet_facts Hq; try congruence.
    + exfalso. revert Hr Equit. unfold_main. rewrite E.
      destruct msg; cbn;
        repeat (break_inner; cbn in *; rewrite ?E in *; cbn in * ); try discriminate;
        intros; quiet_facts Hq; try congruence.
    + revert Hr Equit. unfold_main. rewrite E.
      destruct msg as [w h| k | | n | t | i j | n]; cbn;
        repeat (break_inner; cbn in *; rewrite ?E in *; cbn in * ); try discriminate;
        intros; quiet_facts Hq; try congruence.
      apply EndsDeclined; [exact E | assumption |].
      intros Hc. rewrite Hc in *. discriminate.
    + destruct msg as [w h| k | | n | t | i j | n].
      5: { destruct (Main_tick clk t m E) as [Hs Hc]. rewrite Hc in Hr.
           destruct (Z.geb_spec
                       (time_Since clk
                          (if IsZero (Main.startTime m) then time_Now clk
                           else Main.startTime m)) (5 * Second)) as [Hge|Hlt].
           - apply EndsSent; [exact E | reflexivity | rewrite Hs; exact Hge].
           - exfalso. destruct Hq as (_ & _ & _ & _ & Hq_percent & _).
             cbn in Hr. rewrite Hq_percent in Hr. discriminate. }
      all: exfalso; revert Hr Equit; unfold_main; rewrite ?E; cbn;
        repeat (break_inner; cbn in *; rewrite ?E in *; cbn in * ); try discriminate;
        intros; quiet_facts Hq; try congruence.
  - intros clk msg l Hr.
    destruct (isQuitMsg msg) eqn:Equit; [apply LegacyEndsQuitting; exact Equit|].
    destruct (Legacy.currentView l) eqn:E.
    + exfalso. revert Hr Equit. unfold isQuitMsg, isQuitKey. unfold_legacy. rewrite E.
      destruct msg; cbn;
        repeat (break_inner; cbn in *; rewrite ?E in *; cbn in * ); try discriminate;
        intros; quiet_facts Hq;
        repeat match goal with F : requestsQuit _ = false |- _ => rewrite F in * end;
        cbn in *; try congruence.
    + exfalso. revert Hr Equit. unfold isQuitMsg, isQuitKey. unfold_legacy. rewrite E.
      destruct msg; cbn;
        repeat (break_inner; cbn in *; rewrite ?E in *; cbn in * ); try discriminate;
        intros; quiet_facts Hq; try congruence.
    + revert Hr Equit. unfold isQuitMsg, isQuitKey. unfold_legacy. rewrite E.
      destruct msg as [w h| k | | n | t | i j | n]; cbn;
        repeat (break_inner; cbn in *; rewrite ?E in *; cbn in * ); try discriminate;
        intros; quiet_facts Hq; try congruence.
      apply LegacyEndsDeclined; [exact E | assumption |].
      intros Hc. rewrite Hc in *. discriminate.
    + destruct msg as [w h| k | | n | t | i j | n].
      5: { destruct (Legacy_tick clk t l E) as [Hs Hc]. rewrite Hc in Hr.
           destruct (Z.geb_spec
                       (time_Since clk
                          (if IsZero (Legacy.startTime l) then time_Now clk
                           else Legacy.startTime l)) (5 * Second)) as [Hge|Hlt].
           - apply LegacyEndsSent; [exact E | reflexivity | rewrite Hs; exact Hge].
           - exfalso. destruct Hq as (_ & _ & _ & _ & Hq_percent & _).
             cbn in Hr. rewrite Hq_percent in Hr. discriminate. }
      all: exfalso; revert Hr Equit; unfold isQuitMsg, isQuitKey; unfold_legacy;
        rewrite ?E; cbn;
        repeat (break_inner; cbn in *; rewrite ?E in *; cbn in * ); try discriminate;
        intros; quiet_facts Hq; try congruence.
Qed.

Lemma Demo_widgets_quiet : quietWidgets Demo.widgets.
Proof.
  unfold quietWidgets. cbn.
  repeat split; intros; try reflexivity.
  - unfold Demo.picker_Update. destruct msg; try reflexivity.
    repeat (break_inner; cbn); reflexivity.
  - unfold Demo.field_Update. destruct msg; try reflexivity.
    destruct (key_Type k); reflexivity.
Qed.

(** Declining on the confirmation and the tick at five seconds, on the
    models of the scenario. *)
Lemma X8_why_the_loop_ends_witness :
  quietWidgets Demo.widgets /\
  MainEnding (Demo.at_ 0) Demo.enter (Main.set_cursor 1 Demo.onConfirmation) /\
  LegacyEnding (Demo.at_ (5 * Second)) (TickMsg 0) Demo.tickingLegacy.
Proof.
  destruct (X8_why_the_loop_ends Demo.widgets Demo_widgets_quiet) as [Hm Hl].
  split; [exact Demo_widgets_quiet | split].
  - apply Hm; [vm_compute; discriminate | vm_compute; reflexivity].
  - apply Hl. vm_compute. reflexivity.
Defined.

(** ** The file selection *)

(** X9.  On the file selection of main.go a message that reaches the
    handler is given to one file selector only, the one of the stage.  While
    [csvFilePath] is empty the CSV selector is updated with the message and
    the HTML selector is left alone, unless the message is [enter] and the
    updated CSV selector reports a selected file: then the path is recorded
    and the HTML selector's directory becomes the CSV selector's current
    one.  Once [csvFilePath] is set the CSV selector is left alone and the
    HTML selector is updated with the message. *)
Theorem X9_one_selector_at_a_time :
  forall (W : Widgets) clk msg (m : Main.model),
    Main.currentView m = Main.fileSelectionView ->
    Main_dispatched msg = true ->
    let m' := fst (Main.Update clk msg m) in
    if isSet (Main.csvFilePath m)
    then
      Main.csvFilepicker m' = Main.csvFilepicker m /\
      Main.htmlFilepicker m' = fst (filepicker_Update msg (Main.htmlFilepicker m))
    else
      let csvFp := fst (filepicker_Update msg (Main.csvFilepicker m)) in
      Main.csvFilepicker m' = csvFp /\
      if isEnterMsg msg && fst (filepicker_DidSelectFile msg csvFp)
      then
        Main.csvFilePath m' = snd (filepicker_DidSelectFile msg csvFp) /\
        Main.htmlFilepicker m'
        = filepicker_setCurrentDirectory (filepicker_CurrentDirectory csvFp)
            (Main.htmlFilepicker m) /\
        Main.currentView m' = Main.fileSelectionView
      else
        Main.htmlFilepicker m' = Main.htmlFilepicker m /\
        Main.csvFilePath m' = "".
Proof.
  intros W clk msg m Hv Hd. cbv zeta.
  unfold isSet, isEnterMsg, isEnterKey. unfold Main_dispatched, isQuitKey in Hd.
  unfold_main.
  destruct msg as [w h| k | | n | t | i j | n]; try discriminate Hd; cbn; rewrite ?Hv; cbn.
  2: apply negb_true_iff in Hd; rewrite Hd; cbn.
  all: repeat (break_inner; cbn in *; rewrite ?Hv in *; cbn in * ); try discriminate;
    repeat split; auto; try (apply String.eqb_eq; assumption).
  all: match goal with
       | H1 : (key_String ?k =? "tab")%string = true,
         H2 : (key_String ?k =? "enter")%string && _ = true |- _ =>
           apply String.eqb_eq in H1; rewrite H1 in H2; discriminate
       end.
Qed.

(** Picking [data.csv] in the scenario: the path is recorded, and the HTML
    selector, left alone until then, takes over the directory. *)
Lemma X9_one_selector_at_a_time_witness :
  Main.csvFilePath
    (fst (Main.Update (Demo.at_ 0) Demo.enter (Demo.after [(Demo.at_ 0, Demo.enter)])))
    = "/home/u/data.csv" /\
  Main.htmlFilepicker
    (fst (Main.Update (Demo.at_ 0) Demo.enter (Demo.after [(Demo.at_ 0, Demo.enter)])))
    = Demo.picker_New [".html"] "/home/u".
Proof.
  pose proof (X9_one_selector_at_a_time Demo.widgets (Demo.at_ 0) Demo.enter
                (Demo.after [(Demo.at_ 0, Demo.enter)])
                ltac:(vm_compute; reflexivity) eq_refl) as H.
  cbv zeta in H.
  change (isSet (Main.csvFilePath (Demo.after [(Demo.at_ 0, Demo.enter)]))) with false in H.
  cbv iota in H. destruct H as [_ H].
  change (isEnterMsg Demo.enter
          && fst (filepicker_DidSelectFile Demo.enter
                    (fst (filepicker_Update Demo.enter
                            (Main.csvFilepicker (Demo.after [(Demo.at_ 0, Demo.enter)]))))))
    with true in H.
  cbv iota in H. destruct H as (H1 & H2 & _).
  split; [exact H1 | exact H2].
Defined.

(** ** Resizing *)

Lemma wrap64_small (z : Z) : inInt64 z = true -> wrap64 z = z.
Proof.
  unfold inInt64, wrap64. intros H. apply andb_true_iff in H.
  destruct H as [H1 H2]. apply Z.leb_le in H1. apply Z.ltb_lt in H2.
  rewrite Z.mod_small by lia. lia.
Qed.

(** X10.  A resize on the Progress screen gives the indicator the width of
    the window less 8 columns, and never more than the cap: 100 in main.go,
    80 in the earlier variant.  There is no lower bound: a window narrower
    than 8 columns gives a negative width.  No command is returned, and the
    screen is the same.  main.go also records the new size, on every
    screen. *)
Theorem X10_resize_caps_the_width :
  forall (W : Widgets) clk w h (m : Main.model) (l : Legacy.model),
    inInt64 (w - 8) = true ->
    (let r := Main.Update clk (WindowSizeMsg w h) m in
     Main.windowSize (fst r) = (w, h) /\
     Main.currentView (fst r) = Main.currentView m /\
     (Main.currentView m = Main.progressView ->
        Main.progress (fst r) = progress_setWidth (Z.min (w - 8) 100) (Main.progress m) /\
        snd r = CmdNil)) /\
    (Legacy.currentView l = Legacy.progressView ->
       Legacy.Update clk (WindowSizeMsg w h) l
       = (Legacy.set_progress (progress_setWidth (Z.min (w - 8) 80) (Legacy.progress l)) l,
          CmdNil)).
Proof.
  intros W clk w h m l Hw. cbv zeta.
  assert (Emain : (let x := wrap64 (w - Main.padding * 2 - 4) in
                   if x >? Main.maxWidth then Main.maxWidth else x) = Z.min (w - 8) 100).
  { cbv zeta. unfold Main.padding, Main.maxWidth.
    replace (w - 2 * 2 - 4) with (w - 8) by lia. rewrite (wrap64_small _ Hw).
    destruct (Z.gtb_spec (w - 8) 100); lia. }
  assert (Elegacy : (let x := wrap64 (w - Legacy.padding * 2 - 4) in
                     if x >? Legacy.maxWidth then Legacy.maxWidth else x)
                    = Z.min (w - 8) 80).
  { cbv zeta. unfold Legacy.padding, Legacy.maxWidth.
    replace (w - 2 * 2 - 4) with (w - 8) by lia. rewrite (wrap64_small _ Hw).
    destruct (Z.gtb_spec (w - 8) 80); lia. }
  split; [split; [|split]|].
  - unfold_main. cbn. repeat (break_inner; cbn); reflexivity.
  - unfold_main. cbn. destruct (Main.currentView m) eqn:E;
      repeat (break_inner; cbn in *; rewrite ?E in *; cbn in * ); reflexivity.
  - intros Hv. unfold Main.Update, Main.updateByType.
    destruct style_GetFrameSize as [fh fv].
    destruct (list_Update _ _) as [lst c]. cbn -[wrap64 Z.gtb Z.mul]. rewrite Hv.
    unfold Main.updateProgress. cbv zeta in Emain. rewrite Emain. split; reflexivity.
  - intros Hv. unfold Legacy.Update. cbn -[wrap64 Z.gtb Z.mul]. rewrite Hv.
    unfold Legacy.updateProgress. cbv zeta in Elegacy. rewrite Elegacy. reflexivity.
Qed.

(** A window of 200 columns, and one of 5. *)
Lemma X10_resize_caps_the_width_witness :
  Demo.Width (Main.progress
                (fst (Main.Update (Demo.at_ 0) (WindowSizeMsg 200 50) Demo.onProgress)))
    = 100 /\
  Demo.Width (Legacy.progress
                (fst (Legacy.Update (Demo.at_ 0) (WindowSizeMsg 5 50) Demo.onProgressLegacy)))
    = -3.
Proof.
  destruct (X10_resize_caps_the_width Demo.widgets (Demo.at_ 0) 200 50
              Demo.onProgress Demo.onProgressLegacy eq_refl) as [(_ & _ & Hm) _].
  destruct (X10_resize_caps_the_width Demo.widgets (Demo.at_ 0) 5 50
              Demo.onProgress Demo.onProgressLegacy eq_refl) as [_ Hl].
  destruct Hm as [Hm _]; [vm_compute; reflexivity|].
  rewrite Hm, (Hl ltac:(vm_compute; reflexivity)). split; reflexivity.
Defined.

(** ** Moving forward *)

(** X11.  The wizard moves on [enter] only: in either variant a message
    that is no [enter] key (a tick, a resize, the mouse, any other key, a
    widget's message) leaves the step of the wizard where it is. *)
Theorem X11_only_enter_advances :
  forall (W : Widgets) clk msg (m : Main.model) (l : Legacy.model),
    isAnyEnter msg = false ->
    Main_stageOf (fst (Main.Update clk msg m)) = Main_stageOf m /\
    Legacy_stageOf (fst (Legacy.Update clk msg l)) = Legacy_stageOf l.
Proof.
  intros W clk msg m l H. unfold isAnyEnter, isEnterMsg, isConfirmKey, isEnterKey in H.
  apply orb_false_iff in H. destruct H as [H1 H2].
  unfold Main_stageOf, Legacy_stageOf. split.
  - unfold_main.
    destruct msg as [w h| k | | n | t | i j | n]; destruct (Main.currentView m) eqn:E; cbn;
      rewrite ?H1;
      repeat (break_inner; cbn in *; rewrite ?E, ?H1 in *; cbn in * ); try discriminate;
      reflexivity.
  - unfold_legacy.
    destruct msg as [w h| k | | n | t | i j | n]; destruct (Legacy.currentView l) eqn:E;
      cbn; rewrite ?H1;
      repeat (break_inner; cbn in *; rewrite ?E, ?H1 in *; cbn in * ); try discriminate;
      reflexivity.
Qed.

(** A tick on the confirmation of the scenario. *)
Lemma X11_only_enter_advances_witness :
  Main_stageOf (fst (Main.Update (Demo.at_ 0) (TickMsg 0) Demo.onConfirmation))
    = Confirmation /\
  Legacy_stageOf (fst (Legacy.Update (Demo.at_ 0) (TickMsg 0) Demo.onConfirmationLegacy))
    = Confirmation.
Proof.
  destruct (X11_only_enter_advances Demo.widgets (Demo.at_ 0) (TickMsg 0)
              Demo.onConfirmation Demo.onConfirmationLegacy eq_refl) as [H1 H2].
  rewrite H1, H2. split; vm_compute; reflexivity.
Defined.

(** X12.  The file selection of the earlier variant treats its two file
    selectors differently from main.go.  Whether [enter] selects a file is
    asked of the selector as it is before it has handled the key.  Unless
    the HTML file is selected, in which case the handler returns with both
    selectors untouched, both selectors are updated with every message,
    whatever the stage; [tab] is given twice to the selector of the stage;
    and when the CSV file is selected the HTML selector takes over the CSV
    selector's directory before it is updated. *)
Theorem X12_legacy_selectors :
  forall (W : Widgets) clk msg (l : Legacy.model),
    Legacy.currentView l = Legacy.fileSelectionView ->
    Legacy_dispatched msg = true ->
    let l' := fst (Legacy.Update clk msg l) in
    let csv := Legacy.csvFilepicker l in
    let html := Legacy.htmlFilepicker l in
    let twice fp := if isTabMsg msg then fst (filepicker_Update msg fp) else fp in
    if isSet (Legacy.csvFilePath l)
    then
      if isEnterMsg msg && fst (filepicker_DidSelectFile msg html)
      then
        Legacy.Update clk msg l
        = (Legacy.set_currentView Legacy.subjectInputView
             (Legacy.set_htmlFilePath (snd (filepicker_DidSelectFile msg html)) l), Blink)
      else
        Legacy.csvFilepicker l' = fst (filepicker_Update msg csv) /\
        Legacy.htmlFilepicker l' = fst (filepicker_Update msg (twice html)) /\
        Legacy.currentView l' = Legacy.fileSelectionView
    else
      Legacy.csvFilepicker l' = fst (filepicker_Update msg (twice csv)) /\
      Legacy.currentView l' = Legacy.fileSelectionView /\
      if isEnterMsg msg && fst (filepicker_DidSelectFile msg csv)
      then
        Legacy.csvFilePath l' = snd (filepicker_DidSelectFile msg csv) /\
        Legacy.htmlFilepicker l'
        = fst (filepicker_Update msg
                 (filepicker_setCurrentDirectory (filepicker_CurrentDirectory csv) html))
      else
        Legacy.csvFilePath l' = "" /\
        Legacy.htmlFilepicker l' = fst (filepicker_Update msg html).
Proof.
  intros W clk msg l Hv Hd. cbv zeta.
  unfold isSet, isEnterMsg, isEnterKey, isTabMsg.
  unfold Legacy_dispatched, isQuitKey in Hd.
  unfold_legacy. rewrite Hv.
  destruct msg as [w h| k | | n | t | i j | n]; cbn.
  2: apply negb_true_iff in Hd; rewrite Hd; cbn.
  all: repeat (break_inner; cbn in *; rewrite ?Hv in *; cbn in * ); try discriminate;
    repeat split; auto; try (apply String.eqb_eq; assumption).
  all: try (apply String.eqb_eq, negb_false_iff; assumption).
  all: match goal with
       | H1 : (key_String ?k =? "tab")%string = true,
         H2 : (key_String ?k =? "enter")%string && _ = true |- _ =>
           apply String.eqb_eq in H1; rewrite H1 in H2; discriminate
       | H1 : (key_String ?k =? "tab")%string = true,
         H2 : (key_String ?k =? "enter")%string = true |- _ =>
           apply String.eqb_eq in H1; rewrite H1 in H2; discriminate
       end.
Qed.

(** Picking [data.csv] on the initial model of the earlier variant. *)
Lemma X12_legacy_selectors_witness :
  Legacy.csvFilePath (fst (Legacy.Update (Demo.at_ 0) Demo.enter Demo.startLegacy))
    = "/home/u/data.csv" /\
  Legacy.currentView (fst (Legacy.Update (Demo.at_ 0) Demo.enter Demo.startLegacy))
    = Legacy.fileSelectionView.
Proof.
  pose proof (X12_legacy_selectors Demo.widgets (Demo.at_ 0) Demo.enter Demo.startLegacy
                eq_refl eq_refl) as H.
  cbv zeta in H.
  change (isSet (Legacy.csvFilePath Demo.startLegacy)) with false in H.
  cbv iota in H. destruct H as (_ & Hv & H).
  change (isEnterMsg Demo.enter
          && fst (filepicker_DidSelectFile Demo.enter
                    (Legacy.csvFilepicker Demo.startLegacy)))
    with true in H.
  cbv iota in H. destruct H as (H1 & _).
  split; [exact H1 | exact Hv].
Defined.

(** ** The frames *)

Lemma string_app_assoc (a b c : string) : ((a ++ b) ++ c = a ++ (b ++ c))%string.
Proof. induction a as [|x a IH]; simpl; [reflexivity | rewrite IH; reflexivity]. Qed.

Section Frames2.
Context {W : Widgets} {R : Renderers W}.

(** From the confirmation on, the paths and the subject stay as they are,
    and the screen is the confirmation or the Progress screen. *)
Lemma Main_trace_from_confirmation (m : Main.model) evs :
  Main.currentView m = Main.confirmationView ->
  Forall (fun m' => (Main.currentView m' = Main.confirmationView \/
                     Main.currentView m' = Main.progressView) /\
                    Main.csvFilePath m' = Main.csvFilePath m /\
                    Main.htmlFilePath m' = Main.htmlFilePath m /\
                    Main.subject m' = Main.subject m)
    (Main.trace evs m).
Proof.
  intros Hv. apply Main_trace_Forall; [|repeat split; auto].
  intros clk msg m' (Hv' & H1 & H2 & H3). rewrite <- H1, <- H2, <- H3.
  clear H1 H2 H3 Hv. unfold_main.
  destruct Hv' as [E|E]; rewrite E;
    destruct msg; cbn;
    repeat (break_inner; cbn in *; rewrite ?E in *; cbn in * ); try discriminate;
    repeat split; auto.
Qed.

Lemma Legacy_trace_from_confirmation (l : Legacy.model) evs :
  Legacy.currentView l = Legacy.confirmationView ->
  Forall (fun l' => (Legacy.currentView l' = Legacy.confirmationView \/
                     Legacy.currentView l' = Legacy.progressView) /\
                    Legacy.csvFilePath l' = Legacy.csvFilePath l /\
                    Legacy.htmlFilePath l' = Legacy.htmlFilePath l /\
                    Legacy.subject l' = Legacy.subject l)
    (Legacy.trace evs l).
Proof.
  intros Hv. apply Legacy_trace_Forall; [|repeat split; auto].
  intros clk msg m' (Hv' & H1 & H2 & H3). rewrite <- H1, <- H2, <- H3.
  clear H1 H2 H3 Hv. unfold_legacy.
  destruct Hv' as [E|E]; rewrite E;
    destruct msg; cbn;
    repeat (break_inner; cbn in *; rewrite ?E in *; cbn in * ); try discriminate;
    repeat split; auto.
Qed.

End Frames2.

(** X13.  What the confirmation shows is what the summary reports.  In
    either variant the frame of the Confirmation screen carries the CSV
    path, the HTML path and the subject of the model, with the choice under
    the cursor marked; and whatever messages follow, the line [main] prints
    when the loop ends is either [Operation cancelled.] or the line [Emails
    sent using CSV file: ...] with exactly these two paths and this
    subject. *)
Theorem X13_confirmation_shows_the_summary :
  forall (W : Widgets) (R : Renderers W) clk (m : Main.model) (l : Legacy.model) evs,
    Main.currentView m = Main.confirmationView ->
    Legacy.currentView l = Legacy.confirmationView ->
    Main.quitting m = false ->
    Legacy.quitting l = false ->
    let shown (csv html subj : string) (cursor : Z) :=
      (titleStyle_Render "Confirmation" ++ newline ++ newline ++
       itemStyle_Render ("CSV file: " ++ csv) ++ newline ++
       itemStyle_Render ("HTML file: " ++ html) ++ newline ++
       itemStyle_Render ("Subject: " ++ subj) ++ newline ++ newline ++
       itemStyle_Render "Send emails?" ++ newline ++
       itemStyle_Render ((if (cursor =? 0)%Z then "(•) " else "( ) ") ++ "Yes") ++ newline ++
       itemStyle_Render ((if (cursor =? 1)%Z then "(•) " else "( ) ") ++ "No") ++ newline ++
       newline ++ itemStyle_Render "(q to quit)")%string in
    (Main_View clk m
     = lipgloss_Place (fst (Main.windowSize m)) (snd (Main.windowSize m))
         (style_Render
            (shown (Main.csvFilePath m) (Main.htmlFilePath m) (Main.subject m)
               (Main.cursor m))) /\
     forall final,
       Main.Run evs m = Some final ->
       fst (Main.main (final, None))
       = if Main.confirmed final
         then sentLine (Main.csvFilePath m) (Main.htmlFilePath m) (Main.subject m)
         else cancelledLine) /\
    (Legacy_View l
     = (shown (Legacy.csvFilePath l) (Legacy.htmlFilePath l) (Legacy.subject l)
          (Legacy.cursor l) ++ newline)%string /\
     forall final,
       Legacy.Run evs l = Some final ->
       fst (Legacy.main (final, None))
       = if Legacy.confirmed final
         then sentLine (Legacy.csvFilePath l) (Legacy.htmlFilePath l) (Legacy.subject l)
         else cancelledLine).
Proof.
  intros W R clk m l evs Hm Hl Hqm Hql. cbv zeta. split; split.
  - unfold Main_View, Main_frame, Main_body, Main_hinted, choiceLines.
    rewrite Hqm, Hm. cbv beta iota zeta.
    destruct (Main.cursor m =? 0), (Main.cursor m =? 1);
      repeat (rewrite !string_app_assoc; cbn [append]); reflexivity.
  - intros final Hrun. apply Main_Run_in_trace in Hrun.
    pose proof (Main_trace_from_confirmation m evs Hm) as HF.
    rewrite Forall_forall in HF. destruct (HF final Hrun) as (_ & E1 & E2 & E3).
    unfold Main.main. rewrite E1, E2, E3. destruct (Main.confirmed final); reflexivity.
  - unfold Legacy_View, Legacy_frame, Legacy_body, choiceLines.
    rewrite Hql, Hl. cbv beta iota zeta.
    destruct (Legacy.cursor l =? 0), (Legacy.cursor l =? 1);
      repeat (rewrite !string_app_assoc; cbn [append]); reflexivity.
  - intros final Hrun. apply Legacy_Run_in_trace in Hrun.
    pose proof (Legacy_trace_from_confirmation l evs Hl) as HF.
    rewrite Forall_forall in HF. destruct (HF final Hrun) as (_ & E1 & E2 & E3).
    unfold Legacy.main. rewrite E1, E2, E3. destruct (Legacy.confirmed final); reflexivity.
Qed.

(** The confirmation of the scenario as rendered with renderers that add
    nothing, and the line printed after [enter] and the ticks. *)
Lemma X13_confirmation_shows_the_summary_witness :
  Main_View (R := DemoView.renderers) (Demo.at_ 0) Demo.onConfirmation
  = ("Confirmation" ++ newline ++ newline ++
     "CSV file: /home/u/data.csv" ++ newline ++
     "HTML file: /home/u/tpl.html" ++ newline ++
     "Subject: Welcome" ++ newline ++ newline ++
     "Send emails?" ++ newline ++
     "(•) Yes" ++ newline ++
     "( ) No" ++ newline ++ newline ++
     "(q to quit)")%string /\
  option_map (fun final => fst (Main.main (final, None)))
    (Main.Run ((Demo.at_ 0, Demo.enter) :: Demo.ticks) Demo.onConfirmation)
  = Some (sentLine "/home/u/data.csv" "/home/u/tpl.html" "Welcome").
Proof.
  destruct (X13_confirmation_shows_the_summary Demo.widgets DemoView.renderers
              (Demo.at_ 0) Demo.onConfirmation Demo.onConfirmationLegacy
              ((Demo.at_ 0, Demo.enter) :: Demo.ticks)
              ltac:(vm_compute; reflexivity) ltac:(vm_compute; reflexivity)
              ltac:(vm_compute; reflexivity) ltac:(vm_compute; reflexivity))
    as [[Hview Hline] _].
  split.
  - rewrite Hview. vm_compute. reflexivity.
  - destruct (Main.Run ((Demo.at_ 0, Demo.enter) :: Demo.ticks) Demo.onConfirmation)
      as [final|] eqn:E; [|vm_compute in E; discriminate E].
    cbn [option_map]. rewrite (Hline final eq_refl).
    assert (Ec : Main.confirmed final = true).
    { vm_compute in E. injection E as <-. reflexivity. }
    rewrite Ec. vm_compute. reflexivity.
Defined.

(** X14.  [Goodbye!] is never shown before the end.  All along a run from
    the initial model, in either variant, the frame of every model but the
    last is the frame of its screen.  And a run that ends because the user
    declines on the confirmation ends on the frame of the Confirmation
    screen: [enter] with the cursor off Yes returns [tea.Quit] without
    setting [quitting]. *)
Theorem X14_goodbye_comes_last :
  forall (W : Widgets) (R : Renderers W) clk,
    (forall home evs,
       Forall (fun m => Main_View clk m = Main_frame clk m)
         (removelast (Main.trace evs (Main.initialModel home))) /\
       Forall (fun l => Legacy_View l = Legacy_frame l)
         (removelast (Legacy.trace evs (Legacy.initialModel home)))) /\
    (forall clk0 k (m : Main.model) (l : Legacy.model),
       key_String k = "enter" ->
       Main.currentView m = Main.confirmationView -> Main.cursor m <> 0 ->
       Main.quitting m = false ->
       Legacy.currentView l = Legacy.confirmationView -> Legacy.cursor l <> 0 ->
       Legacy.quitting l = false ->
       (snd (Main.Update clk0 (KeyMsg k) m) = Quit /\
        Main.currentView (fst (Main.Update clk0 (KeyMsg k) m)) = Main.confirmationView /\
        Main_View clk (fst (Main.Update clk0 (KeyMsg k) m))
        = Main_frame clk (fst (Main.Update clk0 (KeyMsg k) m))) /\
       (snd (Legacy.Update clk0 (KeyMsg k) l) = Quit /\
        Legacy.currentView (fst (Legacy.Update clk0 (KeyMsg k) l))
        = Legacy.confirmationView /\
        Legacy_View (fst (Legacy.Update clk0 (KeyMsg k) l))
        = Legacy_frame (fst (Legacy.Update clk0 (KeyMsg k) l)))).
Proof.
  intros W R clk. split.
  - intros home evs. split.
    + eapply Forall_impl; [|apply Main_trace_quitting; reflexivity].
      intros m Hq. unfold Main_View. rewrite Hq. reflexivity.
    + eapply Forall_impl; [|apply Legacy_trace_quitting; reflexivity].
      intros l Hq. unfold Legacy_View. rewrite Hq. reflexivity.
  - intros clk0 k m l Hk Hm Hcm Hqm Hl Hcl Hql.
    assert (Em : (Main.cursor m =? 0) = false) by (apply Z.eqb_neq; exact Hcm).
    assert (El : (Legacy.cursor l =? 0) = false) by (apply Z.eqb_neq; exact Hcl).
    split.
    + rewrite Main_confirmation_key; [|exact Hm|unfold isQuitKey; rewrite Hk; reflexivity].
      unfold Main.updateConfirmation, Main_View. rewrite Hk. cbn. rewrite Em. cbn.
      rewrite Hqm. repeat split. exact Hm.
    + rewrite Legacy_confirmation_key;
        [|exact Hl|unfold isQuitKey; rewrite Hk; reflexivity].
      unfold Legacy.updateConfirmation, Legacy_View. rewrite Hk. cbn. rewrite El. cbn.
      rewrite Hql. repeat split. exact Hl.
Qed.

(** Declining on the confirmation of the scenario. *)
Lemma X14_goodbye_comes_last_witness :
  snd (Main.Update (Demo.at_ 0) Demo.enter (Main.set_cursor 1 Demo.onConfirmation)) = Quit /\
  Main.quitting
    (fst (Main.Update (Demo.at_ 0) Demo.enter (Main.set_cursor 1 Demo.onConfirmation)))
  = false.
Proof.
  destruct (X14_goodbye_comes_last Demo.widgets DemoView.renderers (Demo.at_ 0))
    as [_ H].
  destruct (H (Demo.at_ 0) {| key_Type := KeyEnter; key_String := "enter" |}
              (Main.set_cursor 1 Demo.onConfirmation)
              (Legacy.set_cursor 1 Demo.onConfirmationLegacy)
              eq_refl ltac:(vm_compute; reflexivity) ltac:(vm_compute; discriminate)
              ltac:(vm_compute; reflexivity) ltac:(vm_compute; reflexivity)
              ltac:(vm_compute; discriminate) ltac:(vm_compute; reflexivity))
    as [(Hq & _ & _) _].
  split; [exact Hq | vm_compute; reflexivity].
Defined.

(** X15.  An empty listing.  On the file selection of main.go, when the
    view of the selector of the stage is empty, the frame says [No files
    found in this directory.] in its place, and whether a file is selected
    is not asked.  The earlier variant has nothing of the kind: its frame
    goes on with the quit hint. *)
Theorem X15_no_files_found :
  forall (W : Widgets) (R : Renderers W) clk (m : Main.model) (l : Legacy.model),
    Main.currentView m = Main.fileSelectionView ->
    Legacy.currentView l = Legacy.fileSelectionView ->
    Main.quitting m = false ->
    Legacy.quitting l = false ->
    filepicker_View
      (if isSet (Main.csvFilePath m) then Main.htmlFilepicker m else Main.csvFilepicker m)
    = "" ->
    filepicker_View
      (if isSet (Legacy.csvFilePath l) then Legacy.htmlFilepicker l
       else Legacy.csvFilepicker l)
    = "" ->
    Main_View clk m
    = lipgloss_Place (fst (Main.windowSize m)) (snd (Main.windowSize m))
        (style_Render
           (titleStyle_Render "File Selection" ++ newline ++ newline ++
            (if isSet (Main.csvFilePath m)
             then itemStyle_Render ("CSV file: " ++ Main.csvFilePath m) ++ newline ++
                  itemStyle_Render
                    ("Current Directory: "
                       ++ filepicker_CurrentDirectory (Main.htmlFilepicker m))
                    ++ newline ++
                  itemStyle_Render "Select HTML file:" ++ newline
             else itemStyle_Render
                    ("Current Directory: "
                       ++ filepicker_CurrentDirectory (Main.csvFilepicker m))
                    ++ newline ++
                  itemStyle_Render "Select CSV file:" ++ newline) ++
            "No files found in this directory." ++ newline ++
            newline ++ itemStyle_Render "(q to quit)"))%string /\
    Legacy_View l
    = (titleStyle_Render "File Selection" ++ newline ++ newline ++
       (if isSet (Legacy.csvFilePath l)
        then itemStyle_Render ("CSV file: " ++ Legacy.csvFilePath l) ++ newline ++ newline ++
             itemStyle_Render "Select HTML file:" ++ newline
        else itemStyle_Render "Select CSV file:" ++ newline) ++
       newline ++ itemStyle_Render "(q to quit)" ++ newline)%string.
Proof.
  intros W R clk m l Hm Hl Hqm Hql Hvm Hvl. unfold isSet in *. split.
  - unfold Main_View, Main_frame, Main_body, Main_hinted, Main_pickerPart.
    rewrite Hqm, Hm. cbv beta iota zeta.
    destruct (Main.csvFilePath m =? "")%string; cbn [negb] in *; rewrite Hvm;
      cbn [String.length Nat.eqb append];
      repeat (rewrite !string_app_assoc; cbn [append]); reflexivity.
  - unfold Legacy_View, Legacy_frame, Legacy_body.
    rewrite Hql, Hl. cbv beta iota zeta.
    destruct (Legacy.csvFilePath l =? "")%string; cbn [negb] in *; rewrite Hvl;
      repeat (rewrite !string_app_assoc; cbn [append]); reflexivity.
Qed.

(** The frames of both variants on a directory without entries. *)
Lemma X15_no_files_found_witness :
  Main_View (R := DemoView.renderers) (Demo.at_ 0) DemoView.onEmptyDirectory
  = ("File Selection" ++ newline ++ newline ++
     "Current Directory: /empty" ++ newline ++
     "Select CSV file:" ++ newline ++
     "No files found in this directory." ++ newline ++ newline ++
     "(q to quit)")%string /\
  Legacy_View (R := DemoView.renderers) DemoView.onEmptyDirectoryLegacy
  = ("File Selection" ++ newline ++ newline ++
     "Select CSV file:" ++ newline ++ newline ++
     "(q to quit)" ++ newline)%string.
Proof.
  destruct (X15_no_files_found Demo.widgets DemoView.renderers (Demo.at_ 0)
              DemoView.onEmptyDirectory DemoView.onEmptyDirectoryLegacy
              ltac:(vm_compute; reflexivity) ltac:(vm_compute; reflexivity)
              ltac:(vm_compute; reflexivity) ltac:(vm_compute; reflexivity)
              ltac:(vm_compute; reflexivity) ltac:(vm_compute; reflexivity))
    as [Hm Hl].
  rewrite Hm, Hl. split; vm_compute; reflexivity.
Defined.

(** ** The Home frame *)

Lemma renderItems_nth {W : Widgets} {R : Renderers W} (its : list item) idx :
  forall i n,
    nth_error (renderItems i idx (map Some its)) n
    = option_map
        (fun it => if i + Z.of_nat n =? idx
                   then selectedItemStyle_Render ("> " ++ title it)%string
                   else itemStyle_Render ("  " ++ title it)%string)
        (nth_error its n).
Proof.
  induction its as [|it its IH]; intros i n.
  - destruct n; reflexivity.
  - destruct n as [|n]; cbn [map renderItems nth_error option_map].
    + rewrite Z.add_0_r. reflexivity.
    + rewrite IH. replace (i + 1 + Z.of_nat n) with (i + Z.of_nat (S n)) by lia.
      reflexivity.
Qed.

(** X16.  The menu of the Home frame has one line per item, in the order of
    the list: the line of the item at the list's index is the title after
    [> ] in the selected style, every other line is the title after two
    spaces in the item style.  With the index outside the list no line is
    the selected one. *)
Theorem X16_home_menu_lines :
  forall (W : Widgets) (R : Renderers W) (its : list item) (idx : Z),
    List.length (renderItems 0 idx (map Some its)) = List.length its /\
    (forall n,
       nth_error (renderItems 0 idx (map Some its)) n
       = option_map
           (fun it => if Z.of_nat n =? idx
                      then selectedItemStyle_Render ("> " ++ title it)%string
                      else itemStyle_Render ("  " ++ title it)%string)
           (nth_error its n)) /\
    (idx < 0 \/ Z.of_nat (List.length its) <= idx ->
     renderItems 0 idx (map Some its)
     = map (fun it => itemStyle_Render ("  " ++ title it)%string) its).
Proof.
  intros W R its idx.
  assert (Hn : forall n,
             nth_error (renderItems 0 idx (map Some its)) n
             = option_map
                 (fun it => if Z.of_nat n =? idx
                            then selectedItemStyle_Render ("> " ++ title it)%string
                            else itemStyle_Render ("  " ++ title it)%string)
                 (nth_error its n)).
  { intros n. rewrite renderItems_nth. reflexivity. }
  assert (Hlen : List.length (renderItems 0 idx (map Some its)) = List.length its).
  { destruct (Nat.lt_trichotomy (List.length (renderItems 0 idx (map Some its)))
                (List.length its)) as [Hlt|[Heq|Hgt]]; [|exact Heq|].
    - pose proof (Hn (List.length (renderItems 0 idx (map Some its)))) as H.
      rewrite (proj2 (nth_error_None _ _) (Nat.le_refl _)) in H.
      apply nth_error_Some in Hlt. destruct (nth_error its _); [discriminate H|].
      exfalso. apply Hlt. reflexivity.
    - pose proof (Hn (List.length its)) as H.
      rewrite (proj2 (nth_error_None its _) (Nat.le_refl _)) in H.
      apply nth_error_Some in Hgt. exfalso. apply Hgt. exact H. }
  split; [exact Hlen | split; [exact Hn|]].
  intros Hout. apply nth_error_ext. intros n. rewrite Hn, nth_error_map.
  destruct (nth_error its n) as [it|] eqn:E; [|reflexivity]. cbn.
  assert (Hlt : (n < List.length its)%nat) by (apply nth_error_Some; congruence).
  destruct (Z.eqb_spec (Z.of_nat n) idx); [lia | reflexivity].
Qed.

(** The menu of the initial model of the scenario, and with the index past
    the list. *)
Lemma X16_home_menu_lines_witness :
  renderItems (R := DemoView.renderers) 0 0
    (map Some [ {| title := "CSV and HTML Upload"; description := "" |};
                {| title := "Quit"; description := "" |} ])
  = ["> CSV and HTML Upload"; "  Quit"] /\
  renderItems (R := DemoView.renderers) 0 2
    (map Some [ {| title := "CSV and HTML Upload"; description := "" |};
                {| title := "Quit"; description := "" |} ])
  = ["  CSV and HTML Upload"; "  Quit"].
Proof.
  destruct (X16_home_menu_lines Demo.widgets DemoView.renderers
              [ {| title := "CSV and HTML Upload"; description := "" |};
                {| title := "Quit"; description := "" |} ] 2) as (_ & _ & H).
  split; [reflexivity | rewrite H; [reflexivity | right; cbn; lia]].
Defined.
